(** * Website categorizer: model of [main.py] and its specification

    The program is one FastAPI endpoint, [POST /api/v1/categorize].  It
    fetches a page, reduces it to text, asks a language model for categories
    and clamps the answer to a fixed list of niches.

    Conventions of the embedding.
    - A Python [str] is a [string]; one [ascii] stands for one character.
    - Python exceptions are the constructors of [exn]; a computation that may
      raise returns an [outcome].
    - The outside world (the HTTP client, the HTML parser, the language-model
      chain) is a record of functions, [World]; every call to it is written
      to a trace of [event]s, so that "the classifier was not called" is a
      statement about the trace. *)

From Stdlib Require Import List String Ascii ZArith NArith Bool Lia.
Import ListNotations.
Local Open Scope string_scope.
Local Open Scope list_scope.

(** ** 1. Fixed niches *)

(** [ALLOWED_NICHES], lines 14-19 of [main.py]. *)
Definition ALLOWED_NICHES : list string :=
  [ "Business"; "Digital Marketing & Advertising"; "Technology / Gadgets & Technology";
    "SaaS"; "Ecommerce"; "Finance"; "Health"; "Lifestyle"; "Education";
    "Real Estate"; "Casino"; "CBD"; "Blockchain & Cryptocurrency";
    "Gaming"; "Pharmacy"; "Banking"; "Energy"; "Manufacturing & Industry"; "Science" ].

(** The pydantic model [CategoryResponse]: one field, a list of strings. *)
Record CategoryResponse : Type := mkCategoryResponse { categories : list string }.

(** The pydantic model [UrlInput]; [str(input_data.url)] is the field. *)
Record UrlInput : Type := mkUrlInput { url : string }.

(** Python's [x in xs] on a list of [str]: equality of strings, element by
    element, from the left. *)
Fixpoint str_in (x : string) (xs : list string) : bool :=
  match xs with
  | [] => false
  | y :: ys => if String.eqb x y then true else str_in x ys
  end.

(** Line 87: [[c for c in result.categories if c in ALLOWED_NICHES]]. *)
Definition valid_categories (cs : list string) : list string :=
  filter (fun c => str_in c ALLOWED_NICHES) cs.

(** Python's [xs or default] on lists: an empty list is falsy. *)
Definition list_or {A : Type} (xs default : list A) : list A :=
  match xs with
  | [] => default
  | _ :: _ => xs
  end.

(** Line 88: [CategoryResponse(categories=valid_categories or ["Business"])]. *)
Definition clamp (cs : list string) : CategoryResponse :=
  mkCategoryResponse (list_or (valid_categories cs) ["Business"]).

(** ** 2. Python strings *)

(** [str.isspace] on one character, for the code points below 256:
    tab to carriage return, the four separators 28-31, space, NEL and the
    no-break space. *)
Definition isspace (c : ascii) : bool :=
  let n := N_of_ascii c in
  ((9 <=? n) && (n <=? 13) || (28 <=? n) && (n <=? 32) || (n =? 133) || (n =? 160))%N.

(** [str.lstrip()], [str.rstrip()] and [str.strip()] without argument. *)
Fixpoint lstrip (s : string) : string :=
  match s with
  | EmptyString => EmptyString
  | String c s' => if isspace c then lstrip s' else s
  end.

Fixpoint rstrip (s : string) : string :=
  match s with
  | EmptyString => EmptyString
  | String c s' =>
      match rstrip s' with
      | EmptyString => if isspace c then EmptyString else String c EmptyString
      | r => String c r
      end
  end.

Definition strip (s : string) : string := rstrip (lstrip s).

(** Truthiness of a [str]: [not text] holds of the empty string only. *)
Definition str_is_empty (s : string) : bool :=
  match s with
  | EmptyString => true
  | String _ _ => false
  end.

(** The slice [s[:stop]] for a non-negative [stop]. *)
Definition slice_to (stop : nat) (s : string) : string := substring 0 stop s.

(** The bound of line 51, [text[:5000]]. *)
Definition TEXT_LIMIT : nat := Z.to_nat 5000.

(** ** 3. Exceptions, outcomes and the trace of outside calls *)

(** What the libraries the program calls may raise: the classes below
    [httpx.RequestError] (connection, timeout, redirect and decoding errors),
    which the extractor catches; the other classes that derive from
    [Exception]; and the classes that derive from [BaseException] only, such
    as [asyncio.CancelledError] at an [await], [KeyboardInterrupt] and
    [SystemExit].  No library raises FastAPI's [HTTPException]. *)
Inductive lib_exn : Type :=
| RequestError (message : string)
| OtherError (name message : string)
| BaseExceptionOnly (name message : string).

(** Whether the class of a library exception derives from [Exception]. *)
Definition derives_from_Exception (e : lib_exn) : bool :=
  match e with
  | RequestError _ | OtherError _ _ => true
  | BaseExceptionOnly _ _ => false
  end.

(** The exceptions of the program.  The ones the program raises itself
    derive from [Exception]; a library exception may not. *)
Inductive exn : Type :=
| HTTPException (status_code : Z) (detail : string)   (* fastapi.HTTPException *)
| HTTPStatusError (status_code : Z)                   (* from raise_for_status *)
| ValueError (message : string)
| AttributeError (message : string)
| LibraryError (e : lib_exn).

Inductive outcome (A : Type) : Type :=
| Return (a : A)
| Raise (e : exn).
Arguments Return {A} a.
Arguments Raise {A} e.

(** The calls that leave the process, in the order they are made. *)
Inductive event : Type :=
| ClientOpened                      (* entering [async with httpx.AsyncClient(...)] *)
| HttpGet (target : string)         (* [client.get(url, headers=headers)] *)
| ClientClosed                      (* leaving the [async with] block, on every path *)
| LlmSetup                          (* building the model, the prompt and the chain *)
| LlmInvoke (content : string).     (* [chain.ainvoke({"content": text_content})] *)

(** A computation: the events it caused and how it ended. *)
Definition M (A : Type) : Type := (list event * outcome A)%type.

Definition ret {A : Type} (a : A) : M A := ([], Return a).
Definition raise {A : Type} (e : exn) : M A := ([], Raise e).
Definition emit (ev : event) : M unit := ([ev], Return tt).

Definition bind {A B : Type} (m : M A) (k : A -> M B) : M B :=
  match m with
  | (t, Return a) => let (t', r) := k a in (t ++ t', r)
  | (t, Raise e) => (t, Raise e)
  end.

Notation "x <- m ;; k" := (bind m (fun x => k))
  (at level 61, m at next level, right associativity).
Notation "m ;;; k" := (bind m (fun _ => k))
  (at level 61, right associativity).

(** [try: body except <class> as exc: handler(exc)].  [catches e] is
    [Some x] when [e] belongs to the class, with [x] what the handler reads
    of it. *)
Definition try_except {A X : Type} (body : M A) (catches : exn -> option X)
    (handler : X -> M A) : M A :=
  match body with
  | (t, Raise e) =>
      match catches e with
      | Some x => let (t', r) := handler x in (t ++ t', r)
      | None => body
      end
  | (_, Return _) => body
  end.

(** [async with ... as client: body]: the client is released whether the body
    returns or raises. *)
Definition with_client {A : Type} (body : M A) : M A :=
  let (t, r) := body in (ClientOpened :: t ++ [ClientClosed], r).

Definition trace {A : Type} (m : M A) : list event := fst m.
Definition result {A : Type} (m : M A) : outcome A := snd m.

(** What a collaborator answers to one call. *)
Inductive reply (A : Type) : Type :=
| Reply (a : A)
| Fails (e : lib_exn).
Arguments Reply {A} a.
Arguments Fails {A} e.

(** A call to a collaborator, inside a computation. *)
Definition call {A : Type} (r : reply A) : M A :=
  match r with
  | Reply a => ret a
  | Fails e => raise (LibraryError e)
  end.

(** [except httpx.RequestError as exc]: the handler reads [str(exc)], the
    message of the error. *)
Definition as_RequestError (e : exn) : option string :=
  match e with
  | LibraryError (RequestError message) => Some message
  | _ => None
  end.

(** [except Exception as e]: an exception that derives from [BaseException]
    only is not of the class and goes on. *)
Definition as_Exception (e : exn) : option exn :=
  match e with
  | LibraryError lib => if derives_from_Exception lib then Some e else None
  | _ => Some e
  end.

(** ** 4. The parsed document (BeautifulSoup) *)

#[local] Set Warnings "-register-all".

(** The classes of string nodes of a parsed document. *)
Inductive string_type : Type :=
| TNavigableString | TCData | TComment | TDeclaration | TDoctype
| TProcessingInstruction | TScript | TStylesheet | TTemplateString.

(** A node of the document: a string, or an element with its children.
    [oid] is the identity of the Python object; the loop of lines 44-45
    holds references to elements while it changes the tree. *)
Inductive PageElement : Type :=
| NavigableString (ty : string_type) (s : string)
| Tag (oid : nat) (name : string) (contents : list PageElement).

(** The [BeautifulSoup] object: the top-level nodes of the document. *)
Definition BeautifulSoup : Type := list PageElement.

(** Line 44, the tag names handed to [soup(...)]. *)
Definition STRIPPED_TAGS : list string := ["script"; "style"; "nav"; "footer"; "header"].

(** [soup(names)], that is [soup.find_all(names)]: the elements below the
    root whose name is one of [names], in document order, nested ones
    included.  An element is returned as its reference. *)
Fixpoint find_all_elt (names : list string) (e : PageElement) : list nat :=
  match e with
  | NavigableString _ _ => []
  | Tag i n cs =>
      (if str_in n names then [i] else []) ++ flat_map (find_all_elt names) cs
  end.

Definition find_all (names : list string) (soup : BeautifulSoup) : list nat :=
  flat_map (find_all_elt names) soup.

(** [element.decompose()]: the element is taken out of its parent and
    destroyed with everything below it.  On an element that is no longer in
    the tree nothing changes. *)
Fixpoint decompose_elt (element : nat) (e : PageElement) : list PageElement :=
  match e with
  | NavigableString _ _ => [e]
  | Tag i n cs =>
      if Nat.eqb i element then []
      else [Tag i n (flat_map (decompose_elt element) cs)]
  end.

Definition decompose (element : nat) (soup : BeautifulSoup) : BeautifulSoup :=
  flat_map (decompose_elt element) soup.

(** Lines 44-45: [for element in soup([...]): element.decompose()].  The
    result set is computed once, before the first element is removed. *)
Definition decompose_each (elements : list nat) (soup : BeautifulSoup) : BeautifulSoup :=
  fold_left (fun tree element => decompose element tree) elements soup.

(** The string classes [get_text] keeps by default. *)
Definition interesting_string_type (ty : string_type) : bool :=
  match ty with
  | TNavigableString | TCData => true
  | _ => false
  end.

(** The strings [get_text(strip=True)] collects: each one stripped, the ones
    that become empty skipped, in document order. *)
Fixpoint all_strings_elt (e : PageElement) : list string :=
  match e with
  | NavigableString ty s =>
      if interesting_string_type ty
      then (if str_is_empty (strip s) then [] else [strip s])
      else []
  | Tag _ _ cs => flat_map all_strings_elt cs
  end.

Definition all_strings (soup : BeautifulSoup) : list string :=
  flat_map all_strings_elt soup.

(** [soup.get_text(separator=sep, strip=True)]. *)
Definition get_text (sep : string) (soup : BeautifulSoup) : string :=
  String.concat sep (all_strings soup).

(** ** 5. The outside world *)

(** An [httpx.Response], as far as the program reads it. *)
Record Response : Type := mkResponse { status_code : Z; text : string }.

(** What the collaborators answer.  None of them is part of the program. *)
Record World : Type := mkWorld {
  (** [await client.get(url, headers=...)], redirects followed, 10 s timeout. *)
  client_get : string -> reply Response;
  (** [BeautifulSoup(markup, 'html.parser')]. *)
  html_parser : string -> reply BeautifulSoup;
  (** Lines 66-81: building the model client, the prompt and the chain. *)
  llm_setup : reply unit;
  (** [await chain.ainvoke({"content": ...})]: a parsed [CategoryResponse],
      or [None] when the model's answer holds no structured output. *)
  chain_ainvoke : string -> reply (option CategoryResponse)
}.

(** [Response.is_success]. *)
Definition is_success (r : Response) : bool :=
  ((200 <=? status_code r) && (status_code r <=? 299))%Z.

(** [Response.raise_for_status()]. *)
Definition raise_for_status (r : Response) : M unit :=
  if is_success r then ret tt else raise (HTTPStatusError (status_code r)).

(** ** 6. Async content extractor (lines 31-54) *)

Definition ACCESS_DENIED : string := "Access denied by website (Cloudflare/Bot protection).".
Definition NO_READABLE_TEXT : string := "Website returned no readable text.".

(** Lines 43-47: the text of a parsed page before it is cut. *)
Definition page_text (soup : BeautifulSoup) : string :=
  get_text " " (decompose_each (find_all STRIPPED_TAGS soup) soup).

Definition extract_website_text_async (w : World) (target : string) : M string :=
  with_client
    (try_except
       (response <- (emit (HttpGet target) ;;; call (client_get w target)) ;;
        (if (status_code response =? 403)%Z
         then raise (HTTPException 403 ACCESS_DENIED)
         else ret tt) ;;;
        raise_for_status response ;;;
        soup <- call (html_parser w (text response)) ;;
        let txt := page_text soup in
        (if str_is_empty txt then raise (ValueError NO_READABLE_TEXT) else ret tt) ;;;
        ret (slice_to TEXT_LIMIT txt))
       as_RequestError
       (fun exc => raise (HTTPException 502 ("Network error: " ++ exc)))).

(** ** 7. The request handler (lines 59-94) *)

Definition LLM_FAILED : string := "LLM failed to process the request.".

(** [result.categories]: an attribute of the parsed answer; on [None] Python
    raises [AttributeError]. *)
Definition get_categories (r : option CategoryResponse) : M (list string) :=
  match r with
  | Some parsed => ret (categories parsed)
  | None => raise (AttributeError "'NoneType' object has no attribute 'categories'")
  end.

Definition categorize_website (w : World) (input_data : UrlInput) : M CategoryResponse :=
  text_content <- extract_website_text_async w (url input_data) ;;
  try_except
    (emit LlmSetup ;;; call (llm_setup w) ;;;
     answer <- (emit (LlmInvoke text_content) ;;; call (chain_ainvoke w text_content)) ;;
     cats <- get_categories answer ;;
     ret (clamp cats))
    as_Exception
    (fun _ => raise (HTTPException 500 LLM_FAILED)).

(** ** 8. What the framework sends back *)

Inductive ResponseBody : Type :=
| JsonCategories (cs : list string)      (* {"categories": [...]} *)
| JsonDetail (detail : string)           (* {"detail": "..."} *)
| PlainText (s : string).

Record HttpResponse : Type := mkHttpResponse { status : Z; body : ResponseBody }.

(** FastAPI: a returned model is a 200 with its JSON; an [HTTPException] is
    its status with its detail; any other exception leaves the handler and
    the server answers 500 "Internal Server Error". *)
Definition respond (o : outcome CategoryResponse) : HttpResponse :=
  match o with
  | Return r => mkHttpResponse 200 (JsonCategories (categories r))
  | Raise (HTTPException code d) => mkHttpResponse code (JsonDetail d)
  | Raise _ => mkHttpResponse 500 (PlainText "Internal Server Error")
  end.

(** [POST /api/v1/categorize] with a body that passed validation. *)
Definition post_categorize (w : World) (input_data : UrlInput) : HttpResponse :=
  respond (result (categorize_website w input_data)).

(** Whether the classifier was called during a run. *)
Definition is_LlmInvoke (ev : event) : bool :=
  match ev with
  | LlmInvoke _ => true
  | _ => false
  end.

Definition classifier_invoked (t : list event) : bool := existsb is_LlmInvoke t.

(** ** 9. Reference notions used by the statements *)

(** The filtering of the clamping policy, said as a relation: going through
    the model's list from the left, a label that is one of the allowed
    niches is kept where it stands, any other label is dropped. *)
Inductive exact_matches : list string -> list string -> Prop :=
| exact_matches_nil : exact_matches [] []
| exact_matches_keep c cs kept :
    In c ALLOWED_NICHES -> exact_matches cs kept -> exact_matches (c :: cs) (c :: kept)
| exact_matches_drop c cs kept :
    ~ In c ALLOWED_NICHES -> exact_matches cs kept -> exact_matches (c :: cs) kept.

(** The text nodes of a document in document order, each with the names of
    the elements it lies in, outermost first. *)
Fixpoint text_nodes_elt (ancestors : list string) (e : PageElement)
    : list (list string * string_type * string) :=
  match e with
  | NavigableString ty s => [(ancestors, ty, s)]
  | Tag _ n cs => flat_map (text_nodes_elt (ancestors ++ [n])) cs
  end.

Definition text_nodes (soup : BeautifulSoup) : list (list string * string_type * string) :=
  flat_map (text_nodes_elt []) soup.

(** No enclosing element is a script, style, nav, footer or header. *)
Definition outside_stripped (ancestors : list string) : bool :=
  forallb (fun n => negb (str_in n STRIPPED_TAGS)) ancestors.

(** What one text node gives to the visible text: its trimmed string when
    the node is ordinary text outside every stripped element and is not
    blank, nothing otherwise. *)
Definition visible_string (node : list string * string_type * string) : list string :=
  let '(ancestors, ty, s) := node in
  if outside_stripped ancestors && interesting_string_type ty
     && negb (str_is_empty (strip s))
  then [strip s] else [].

(** The visible strings of a document, in document order. *)
Definition visible_strings (soup : BeautifulSoup) : list string :=
  flat_map visible_string (text_nodes soup).

(** The identities of the elements of a document. *)
Fixpoint oids_elt (e : PageElement) : list nat :=
  match e with
  | NavigableString _ _ => []
  | Tag i _ cs => i :: flat_map oids_elt cs
  end.

(** Distinct elements are distinct Python objects. *)
Definition distinct_objects (soup : BeautifulSoup) : Prop :=
  NoDup (flat_map oids_elt soup).

(** The events of a fetch, whatever its end. *)
Definition fetch_events (target : string) : list event :=
  [ClientOpened; HttpGet target; ClientClosed].

(** The allow-list as the data model of the specification prints it. *)
Definition SPEC_NICHES : list string :=
  [ "Business"; "Digital Marketing & Advertising"; "Technology/Gadgets & Technology";
    "SaaS"; "Ecommerce"; "Finance"; "Health"; "Lifestyle"; "Education";
    "Real Estate"; "Casino"; "CBD"; "Blockchain & Cryptocurrency";
    "Gaming"; "Pharmacy"; "Banking"; "Energy"; "Manufacturing & Industry"; "Science" ].

(** The text [t] is what the classifier receives: no call to the chain
    carries anything else, and the call is made as soon as the set-up of the
    model succeeds. *)
Definition sent_to_classifier (w : World) (input_data : UrlInput) (t : string) : Prop :=
  (forall content,
     In (LlmInvoke content) (trace (categorize_website w input_data)) -> content = t)
  /\ (llm_setup w = Reply tt ->
      In (LlmInvoke t) (trace (categorize_website w input_data))).

(** ** 10. Derived forms and notions used in the proofs *)

(** The end of the extractor, read off the world's answers. *)
Definition extract_outcome (w : World) (target : string) : outcome string :=
  match client_get w target with
  | Fails (RequestError m) => Raise (HTTPException 502 ("Network error: " ++ m))
  | Fails (OtherError n m) => Raise (LibraryError (OtherError n m))
  | Fails (BaseExceptionOnly n m) => Raise (LibraryError (BaseExceptionOnly n m))
  | Reply r =>
      if (status_code r =? 403)%Z then Raise (HTTPException 403 ACCESS_DENIED)
      else if is_success r then
        match html_parser w (text r) with
        | Fails (RequestError m) => Raise (HTTPException 502 ("Network error: " ++ m))
        | Fails (OtherError n m) => Raise (LibraryError (OtherError n m))
        | Fails (BaseExceptionOnly n m) => Raise (LibraryError (BaseExceptionOnly n m))
        | Reply soup =>
            if str_is_empty (page_text soup) then Raise (ValueError NO_READABLE_TEXT)
            else Return (slice_to TEXT_LIMIT (page_text soup))
        end
      else Raise (HTTPStatusError (status_code r))
  end.

(** What line 90 makes of a library exception raised in the [try] block. *)
Definition classify_failure (e : lib_exn) : outcome CategoryResponse :=
  if derives_from_Exception e
  then Raise (HTTPException 500 LLM_FAILED)
  else Raise (LibraryError e).

(** The end of lines 65-94 on an extracted text. *)
Definition classify_outcome (w : World) (content : string) : outcome CategoryResponse :=
  match llm_setup w with
  | Fails e => classify_failure e
  | Reply _ =>
      match chain_ainvoke w content with
      | Reply (Some parsed) => Return (clamp (categories parsed))
      | Reply None => Raise (HTTPException 500 LLM_FAILED)
      | Fails e => classify_failure e
      end
  end.

(** The events of lines 65-94. *)
Definition classify_events (w : World) (content : string) : list event :=
  match llm_setup w with
  | Fails _ => [LlmSetup]
  | Reply _ => [LlmSetup; LlmInvoke content]
  end.

(** Induction over a document node with its children. *)
Section PageElement_induction.
Variable P : PageElement -> Prop.
Hypothesis P_string : forall ty s, P (NavigableString ty s).
Hypothesis P_tag : forall i n cs, Forall P cs -> P (Tag i n cs).

Fixpoint PageElement_nested_ind (e : PageElement) : P e :=
  match e with
  | NavigableString ty s => P_string ty s
  | Tag i n cs =>
      P_tag i n cs
        ((fix children (l : list PageElement) : Forall P l :=
            match l with
            | [] => Forall_nil P
            | c :: l' => Forall_cons c (PageElement_nested_ind c) (children l')
            end) cs)
  end.
End PageElement_induction.

(** The tree without the elements whose identity satisfies [p]. *)
Fixpoint remove_where_elt (p : nat -> bool) (e : PageElement) : list PageElement :=
  match e with
  | NavigableString _ _ => [e]
  | Tag i n cs => if p i then [] else [Tag i n (flat_map (remove_where_elt p) cs)]
  end.

Definition remove_where (p : nat -> bool) (soup : BeautifulSoup) : BeautifulSoup :=
  flat_map (remove_where_elt p) soup.

(** The elements of a document with their names, in document order. *)
Fixpoint tags_elt (e : PageElement) : list (nat * string) :=
  match e with
  | NavigableString _ _ => []
  | Tag i n cs => (i, n) :: flat_map tags_elt cs
  end.

Definition tags (soup : BeautifulSoup) : list (nat * string) := flat_map tags_elt soup.

Definition mem (l : list nat) (i : nat) : bool := existsb (Nat.eqb i) l.

Definition named_in (names : list string) (t : nat * string) : bool := str_in (snd t) names.

(** The first character is not white space. *)
Definition starts_nonspace (s : string) : bool :=
  match s with
  | EmptyString => false
  | String c _ => negb (isspace c)
  end.

(** The last character is not white space. *)
Fixpoint ends_nonspace (s : string) : bool :=
  match s with
  | EmptyString => false
  | String c EmptyString => negb (isspace c)
  | String _ s' => ends_nonspace s'
  end.

Definition well_trimmed (s : string) : Prop :=
  starts_nonspace s = true /\ ends_nonspace s = true.

(** ** 11. Sample worlds *)

Module Samples.
Definition plain (s : string) : PageElement := NavigableString TNavigableString s.

(** The page of the end-to-end scenario, parsed. *)
Definition shop_page : BeautifulSoup :=
  [Tag 0 "html"
     [Tag 1 "body"
        [Tag 2 "header" [plain "Nav"];
         Tag 3 "p" [plain "We sell cloud SaaS tools for businesses."]]]].

(** A page with nested stripped elements, a comment and blank text. *)
Definition busy_page : BeautifulSoup :=
  [Tag 0 "html"
     [Tag 1 "head" [Tag 2 "style" [NavigableString TStylesheet "p { color: red }"]];
      Tag 3 "body"
        [Tag 4 "header" [plain "Menu"; Tag 5 "nav" [plain "Home"; Tag 6 "script" [plain "x()"]]];
         plain "   ";
         Tag 7 "p" [plain "  Loans and savings "; NavigableString TComment "draft"];
         Tag 8 "div" [Tag 9 "p" [plain "Open an account"]; Tag 10 "footer" [plain "Legal"]]]]].

Fixpoint letters (n : nat) : string :=
  match n with
  | O => EmptyString
  | S n' => String "a" (letters n')
  end.

(** A page whose text has 5001 characters. *)
Definition long_page : BeautifulSoup := [Tag 0 "p" [plain (letters (Z.to_nat 5001))]].

(** A page with markup and no text. *)
Definition blank_page : BeautifulSoup := [Tag 0 "body" [Tag 1 "script" [plain "run()"]; plain "  "]].

Definition site (code : Z) (soup : BeautifulSoup)
    (answer : reply (option CategoryResponse)) : World :=
  mkWorld (fun _ => Reply (mkResponse code "<html>"))
          (fun _ => Reply soup)
          (Reply tt)
          (fun _ => answer).

Definition answers (cs : list string) : reply (option CategoryResponse) :=
  Reply (Some (mkCategoryResponse cs)).

Definition unreachable : World :=
  mkWorld (fun _ => Fails (RequestError "timed out"))
          (fun _ => Reply shop_page)
          (Reply tt)
          (fun _ => answers ["SaaS"]).

Definition request : UrlInput := mkUrlInput "https://shop.example/".
End Samples.

(** ** Notions used by the further properties *)

Definition is_HttpGet (ev : event) : bool :=
  match ev with
  | HttpGet _ => true
  | _ => false
  end.

(** How often an event of a kind occurs in a trace. *)
Definition occurrences (kind : event -> bool) (t : list event) : nat :=
  List.length (filter kind t).

(** A page that is all chrome: text only in a header and a footer. *)
Definition chrome_page : BeautifulSoup :=
  [Tag 0 "body"
     [Tag 1 "header" [NavigableString TNavigableString "Welcome"];
      Tag 2 "div" [NavigableString TComment "no content yet"; Tag 3 "footer" [NavigableString TNavigableString "Imprint"]]]].

(** A world whose model cannot be set up. *)
Definition no_credentials : World :=
  mkWorld (fun _ => Reply (mkResponse 200 "<html>"))
          (fun _ => Reply Samples.shop_page)
          (Fails (OtherError "DefaultCredentialsError" "api key missing"))
          (fun _ => Samples.answers ["SaaS"]).

(** A world in which the request is cancelled while the chain call is
    awaited. *)
Definition cancelled : World :=
  mkWorld (fun _ => Reply (mkResponse 200 "<html>"))
          (fun _ => Reply Samples.shop_page)
          (Reply tt)
          (fun _ => Fails (BaseExceptionOnly "CancelledError" "client disconnected")).


(** * Proofs

    ** 12. The allow-list and the clamping step *)

Lemma str_in_In (x : string) (xs : list string) : str_in x xs = true <-> In x xs.
Proof.
  induction xs as [|y ys IH]; simpl.
  - split; [discriminate | tauto].
  - destruct (String.eqb_spec x y) as [->|Hne].
    + split; auto.
    + rewrite IH. split; [auto | intros [H|H]; [congruence | exact H]].
Qed.

Lemma str_in_false (x : string) (xs : list string) : str_in x xs = false <-> ~ In x xs.
Proof.
  rewrite <- str_in_In. destruct (str_in x xs); split; congruence.
Qed.

Lemma valid_categories_cons (c : string) (cs : list string) :
  valid_categories (c :: cs) =
  if str_in c ALLOWED_NICHES then c :: valid_categories cs else valid_categories cs.
Proof. reflexivity. Qed.

Lemma valid_categories_exact (cs : list string) : exact_matches cs (valid_categories cs).
Proof.
  induction cs as [|c cs IH].
  - constructor.
  - rewrite valid_categories_cons. destruct (str_in c ALLOWED_NICHES) eqn:E.
    + apply exact_matches_keep; [apply str_in_In, E | exact IH].
    + apply exact_matches_drop; [apply str_in_false, E | exact IH].
Qed.

Lemma exact_matches_unique (cs kept : list string) :
  exact_matches cs kept -> kept = valid_categories cs.
Proof.
  induction 1 as [|c cs kept Hin _ IH|c cs kept Hout _ IH].
  - reflexivity.
  - apply str_in_In in Hin. rewrite valid_categories_cons, Hin, IH. reflexivity.
  - apply str_in_false in Hout. rewrite valid_categories_cons, Hout. exact IH.
Qed.

Lemma valid_categories_allowed (cs : list string) :
  Forall (fun c => In c ALLOWED_NICHES) (valid_categories cs).
Proof.
  apply Forall_forall. intros c Hc.
  apply filter_In in Hc. apply str_in_In, Hc.
Qed.

Lemma valid_categories_fixed (cs : list string) :
  Forall (fun c => In c ALLOWED_NICHES) cs -> valid_categories cs = cs.
Proof.
  induction 1 as [|c cs Hc _ IH].
  - reflexivity.
  - apply str_in_In in Hc. rewrite valid_categories_cons, Hc. f_equal. exact IH.
Qed.

Lemma Business_allowed : In "Business" ALLOWED_NICHES.
Proof. simpl. auto. Qed.

Lemma clamp_allowed (cs : list string) :
  Forall (fun c => In c ALLOWED_NICHES) (categories (clamp cs)).
Proof.
  unfold clamp; simpl.
  pose proof (valid_categories_allowed cs) as H.
  destruct (valid_categories cs); simpl.
  - constructor; [apply Business_allowed | constructor].
  - exact H.
Qed.

Lemma clamp_nonempty (cs : list string) : categories (clamp cs) <> [].
Proof.
  unfold clamp; simpl. destruct (valid_categories cs); simpl; discriminate.
Qed.

(** ** 13. How the extractor and the handler end *)

Section Runs.
Variable w : World.

(** One step through the monad, leaving the world's answers untouched. *)
Ltac run_step :=
  cbn [call emit bind ret raise app try_except with_client as_RequestError as_Exception].

Lemma extract_run (target : string) :
  extract_website_text_async w target = (fetch_events target, extract_outcome w target).
Proof.
  unfold extract_website_text_async, extract_outcome, fetch_events, raise_for_status.
  destruct (client_get w target) as [r|[m|n m|n m]]; try reflexivity.
  run_step.
  destruct (status_code r =? 403)%Z; try reflexivity.
  destruct (is_success r); try reflexivity.
  run_step.
  destruct (html_parser w (text r)) as [soup|[m|n m|n m]]; try reflexivity.
  run_step.
  destruct (str_is_empty (page_text soup)); reflexivity.
Qed.

Lemma categorize_run (input_data : UrlInput) :
  categorize_website w input_data =
  match extract_outcome w (url input_data) with
  | Return content =>
      (fetch_events (url input_data) ++ classify_events w content, classify_outcome w content)
  | Raise e => (fetch_events (url input_data), Raise e)
  end.
Proof.
  unfold categorize_website. rewrite extract_run.
  destruct (extract_outcome w (url input_data)) as [content|e]; [|reflexivity].
  unfold classify_events, classify_outcome, classify_failure.
  cbn [bind emit call].
  destruct (llm_setup w) as [[]|[m|n m|n m]]; try reflexivity.
  run_step.
  destruct (chain_ainvoke w content) as [[parsed|]|[m|n m|n m]]; reflexivity.
Qed.

(** A failed extraction is an exception of one of five shapes. *)
Lemma extract_failure_shape (target : string) (e : exn) :
  extract_outcome w target = Raise e ->
  (exists m, e = HTTPException 502 ("Network error: " ++ m))
  \/ e = HTTPException 403 ACCESS_DENIED
  \/ (exists code, e = HTTPStatusError code)
  \/ e = ValueError NO_READABLE_TEXT
  \/ (exists lib, e = LibraryError lib).
Proof.
  unfold extract_outcome.
  destruct (client_get w target) as [r|[m|n m|n m]].
  - destruct (status_code r =? 403)%Z.
    + intros [= <-]. auto.
    + destruct (is_success r).
      * destruct (html_parser w (text r)) as [soup|[m|n m|n m]].
        -- destruct (str_is_empty (page_text soup)); [|discriminate].
           intros [= <-]. do 3 right. left. reflexivity.
        -- intros [= <-]. left. exists m. reflexivity.
        -- intros [= <-]. do 4 right. eexists. reflexivity.
        -- intros [= <-]. do 4 right. eexists. reflexivity.
      * intros [= <-]. do 2 right. left. eexists. reflexivity.
  - intros [= <-]. left. exists m. reflexivity.
  - intros [= <-]. do 4 right. eexists. reflexivity.
  - intros [= <-]. do 4 right. eexists. reflexivity.
Qed.

(** A library exception raised in the [try] block is caught when it derives
    from [Exception], and goes on as it is when it does not. *)
Lemma classify_failure_cases (lib : lib_exn) :
  (derives_from_Exception lib = true
   /\ classify_failure lib = Raise (HTTPException 500 LLM_FAILED))
  \/ (derives_from_Exception lib = false
      /\ classify_failure lib = Raise (LibraryError lib)).
Proof.
  unfold classify_failure. destruct (derives_from_Exception lib); auto.
Qed.

(** The three ends of lines 65-94: the clamped answer, the fixed 500, or an
    exception outside [Exception] that the set-up or the chain raised. *)
Lemma classify_outcome_cases (content : string) :
  (exists parsed, llm_setup w = Reply tt /\ chain_ainvoke w content = Reply (Some parsed)
                  /\ classify_outcome w content = Return (clamp (categories parsed)))
  \/ classify_outcome w content = Raise (HTTPException 500 LLM_FAILED)
  \/ (exists lib,
        derives_from_Exception lib = false
        /\ (llm_setup w = Fails lib
            \/ (llm_setup w = Reply tt /\ chain_ainvoke w content = Fails lib))
        /\ classify_outcome w content = Raise (LibraryError lib)).
Proof.
  unfold classify_outcome.
  destruct (llm_setup w) as [[]|e].
  - destruct (chain_ainvoke w content) as [[parsed|]|e]; [eauto | auto |].
    destruct (classify_failure_cases e) as [[_ ->]|[Hd ->]]; [auto|].
    do 2 right. exists e. auto.
  - destruct (classify_failure_cases e) as [[_ ->]|[Hd ->]]; [auto|].
    do 2 right. exists e. auto.
Qed.

Lemma LlmInvoke_in_classify (content c : string) :
  In (LlmInvoke c) (classify_events w content) -> c = content.
Proof.
  unfold classify_events. destruct (llm_setup w); simpl.
  - intros [H|[H|[]]]; [discriminate | congruence].
  - intros [H|[]]; discriminate.
Qed.

Lemma respond_extract_failure (target : string) (e : exn) :
  extract_outcome w target = Raise e ->
  status (respond (Raise e)) <> 200%Z
  /\ (forall cs, body (respond (Raise e)) <> JsonCategories cs)
  /\ respond (Raise e) <> mkHttpResponse 500 (JsonDetail LLM_FAILED).
Proof.
  intros H. apply extract_failure_shape in H.
  destruct H as [[m ->]|[->|[[code ->]|[->|[lib ->]]]]]; simpl;
    (split; [discriminate | split; [intros cs; discriminate | discriminate]]).
Qed.
End Runs.

(** ** 14. Removing elements from the document *)

Lemma flat_map_flat_map {A B C : Type} (f : B -> list C) (g : A -> list B) (l : list A) :
  flat_map f (flat_map g l) = flat_map (fun x => flat_map f (g x)) l.
Proof.
  induction l as [|x l IH]; simpl.
  - reflexivity.
  - rewrite flat_map_app, IH. reflexivity.
Qed.

Lemma flat_map_ext_Forall {A B : Type} (f g : A -> list B) (l : list A) :
  Forall (fun x => f x = g x) l -> flat_map f l = flat_map g l.
Proof.
  induction 1 as [|x l Hx _ IH]; simpl.
  - reflexivity.
  - rewrite Hx, IH. reflexivity.
Qed.

Lemma flat_map_nil_Forall {A B : Type} (f : A -> list B) (l : list A) :
  Forall (fun x => f x = []) l -> flat_map f l = [].
Proof.
  induction 1 as [|x l Hx _ IH]; simpl.
  - reflexivity.
  - rewrite Hx, IH. reflexivity.
Qed.

Lemma decompose_is_remove_where (x : nat) (soup : BeautifulSoup) :
  decompose x soup = remove_where (fun i => Nat.eqb i x) soup.
Proof.
  unfold decompose, remove_where. apply flat_map_ext_Forall.
  apply Forall_forall. intros e _.
  induction e as [ty s|i n cs IH] using PageElement_nested_ind; simpl.
  - reflexivity.
  - destruct (Nat.eqb i x); [reflexivity|].
    rewrite (flat_map_ext_Forall _ _ _ IH). reflexivity.
Qed.

Lemma remove_where_ext (p q : nat -> bool) (soup : BeautifulSoup) :
  (forall i, p i = q i) -> remove_where p soup = remove_where q soup.
Proof.
  intros Hpq. unfold remove_where. apply flat_map_ext_Forall.
  apply Forall_forall. intros e _.
  induction e as [ty s|i n cs IH] using PageElement_nested_ind; simpl.
  - reflexivity.
  - rewrite Hpq. destruct (q i); [reflexivity|].
    rewrite (flat_map_ext_Forall _ _ _ IH). reflexivity.
Qed.

Lemma remove_where_twice (p q : nat -> bool) (soup : BeautifulSoup) :
  remove_where q (remove_where p soup) = remove_where (fun i => p i || q i) soup.
Proof.
  unfold remove_where. rewrite flat_map_flat_map. apply flat_map_ext_Forall.
  apply Forall_forall. intros e _.
  induction e as [ty s|i n cs IH] using PageElement_nested_ind; simpl.
  - reflexivity.
  - destruct (p i); simpl; [reflexivity|].
    destruct (q i); [reflexivity|].
    rewrite flat_map_flat_map, app_nil_r.
    rewrite (flat_map_ext_Forall _ _ _ IH). reflexivity.
Qed.

Lemma flat_map_singleton_Forall {A : Type} (f : A -> list A) (l : list A) :
  Forall (fun x => f x = [x]) l -> flat_map f l = l.
Proof.
  induction 1 as [|x l Hx _ IH]; simpl.
  - reflexivity.
  - rewrite Hx, IH. reflexivity.
Qed.

Lemma remove_where_none (soup : BeautifulSoup) :
  remove_where (fun _ => false) soup = soup.
Proof.
  unfold remove_where. apply flat_map_singleton_Forall.
  apply Forall_forall. intros e _.
  induction e as [ty s|i n cs IH] using PageElement_nested_ind; simpl.
  - reflexivity.
  - rewrite (flat_map_singleton_Forall _ _ IH). reflexivity.
Qed.

(** The loop of lines 44-45 leaves the tree without the listed elements. *)
Lemma decompose_each_is_remove_where (elements : list nat) (soup : BeautifulSoup) :
  decompose_each elements soup = remove_where (mem elements) soup.
Proof.
  unfold decompose_each. revert soup.
  induction elements as [|x l IH]; intros soup; simpl.
  - symmetry. apply remove_where_none.
  - rewrite IH, decompose_is_remove_where, remove_where_twice.
    apply remove_where_ext. intros i. reflexivity.
Qed.

Lemma flat_map_hom {A B C : Type} (h : list B -> list C) (g : A -> list B) (l : list A) :
  h [] = [] -> (forall a b, h (a ++ b) = h a ++ h b) ->
  h (flat_map g l) = flat_map (fun x => h (g x)) l.
Proof.
  intros Hnil Happ. induction l as [|x l IH]; simpl.
  - exact Hnil.
  - rewrite Happ, IH. reflexivity.
Qed.

Lemma oids_are_tags_elt (e : PageElement) : oids_elt e = map fst (tags_elt e).
Proof.
  induction e as [ty s|i n cs IH] using PageElement_nested_ind; simpl.
  - reflexivity.
  - f_equal.
    rewrite (flat_map_hom (map fst) tags_elt cs eq_refl (map_app fst)).
    apply flat_map_ext_Forall, IH.
Qed.

Lemma oids_are_tags (soup : BeautifulSoup) :
  flat_map oids_elt soup = map fst (tags soup).
Proof.
  unfold tags. rewrite (flat_map_hom (map fst) tags_elt soup eq_refl (map_app fst)).
  apply flat_map_ext_Forall, Forall_forall. intros e _. apply oids_are_tags_elt.
Qed.

Lemma select_app (names : list string) (a b : list (nat * string)) :
  map fst (filter (named_in names) (a ++ b)) =
  map fst (filter (named_in names) a) ++ map fst (filter (named_in names) b).
Proof. rewrite filter_app, map_app. reflexivity. Qed.

Lemma find_all_elt_tags (names : list string) (e : PageElement) :
  find_all_elt names e = map fst (filter (named_in names) (tags_elt e)).
Proof.
  induction e as [ty s|i n cs IH] using PageElement_nested_ind.
  - reflexivity.
  - cbn [find_all_elt tags_elt filter].
    change (named_in names (i, n)) with (str_in n names).
    rewrite (flat_map_ext_Forall _ _ _ IH).
    rewrite <- (flat_map_hom (fun l => map fst (filter (named_in names) l)) tags_elt cs
                  eq_refl (select_app names)).
    destruct (str_in n names); reflexivity.
Qed.

Lemma find_all_tags (names : list string) (soup : BeautifulSoup) :
  find_all names soup = map fst (filter (named_in names) (tags soup)).
Proof.
  unfold find_all, tags.
  rewrite (flat_map_hom (fun l => map fst (filter (named_in names) l)) tags_elt soup
             eq_refl (select_app names)).
  apply flat_map_ext_Forall, Forall_forall. intros e _. apply find_all_elt_tags.
Qed.

Lemma NoDup_fst_functional {A B : Type} (l : list (A * B)) (a : A) (b b' : B) :
  NoDup (map fst l) -> In (a, b) l -> In (a, b') l -> b = b'.
Proof.
  induction l as [|[x y] l IH]; simpl; intros Hnd H1 H2; [contradiction|].
  inversion Hnd as [|? ? Hnotin Hnd']; subst.
  destruct H1 as [H1|H1], H2 as [H2|H2].
  - congruence.
  - injection H1 as -> ->. exfalso. apply Hnotin.
    apply (in_map fst) in H2. exact H2.
  - injection H2 as -> ->. exfalso. apply Hnotin.
    apply (in_map fst) in H1. exact H1.
  - apply IH; assumption.
Qed.

Lemma mem_In (l : list nat) (i : nat) : mem l i = true <-> In i l.
Proof.
  unfold mem. rewrite existsb_exists. split.
  - intros [x [Hx He]]. apply Nat.eqb_eq in He. subst. exact Hx.
  - intros H. exists i. split; [exact H | apply Nat.eqb_refl].
Qed.

(** With distinct objects, the result set of [find_all] holds an element
    exactly when its name is one of the names asked for. *)
Lemma mem_find_all (names : list string) (soup : BeautifulSoup) (i : nat) (n : string) :
  distinct_objects soup -> In (i, n) (tags soup) ->
  mem (find_all names soup) i = str_in n names.
Proof.
  unfold distinct_objects. rewrite oids_are_tags, find_all_tags. intros Hnd Hin.
  destruct (str_in n names) eqn:E.
  - apply mem_In. apply (in_map fst (filter (named_in names) (tags soup)) (i, n)).
    apply filter_In. split; [exact Hin | exact E].
  - destruct (mem _ i) eqn:M; [|reflexivity].
    apply mem_In, in_map_iff in M. destruct M as [[i' n'] [Hfst Hf]].
    simpl in Hfst. subst i'. apply filter_In in Hf. destruct Hf as [Hin' Hn'].
    unfold named_in in Hn'. simpl in Hn'.
    rewrite (NoDup_fst_functional _ _ _ _ Hnd Hin Hin') in E. congruence.
Qed.

Lemma outside_stripped_snoc (ancestors : list string) (n : string) :
  outside_stripped (ancestors ++ [n]) =
  outside_stripped ancestors && negb (str_in n STRIPPED_TAGS).
Proof.
  unfold outside_stripped. rewrite forallb_app. simpl.
  rewrite andb_true_r. reflexivity.
Qed.

(** Below a stripped element no text node is visible. *)
Lemma nothing_visible_inside (e : PageElement) (ancestors : list string) :
  outside_stripped ancestors = false ->
  flat_map visible_string (text_nodes_elt ancestors e) = [].
Proof.
  revert ancestors.
  induction e as [ty s|i n cs IH] using PageElement_nested_ind; intros ancestors Hout; simpl.
  - rewrite Hout. reflexivity.
  - rewrite flat_map_flat_map. apply flat_map_nil_Forall.
    eapply Forall_impl; [|exact IH]. intros c Hc. apply Hc.
    rewrite outside_stripped_snoc, Hout. reflexivity.
Qed.

(** What [get_text] collects once the elements selected by [p] are gone,
    when [p] selects the elements named in [STRIPPED_TAGS]. *)
Lemma all_strings_remove_where_elt (p : nat -> bool) (e : PageElement) (ancestors : list string) :
  (forall i n, In (i, n) (tags_elt e) -> p i = str_in n STRIPPED_TAGS) ->
  outside_stripped ancestors = true ->
  flat_map all_strings_elt (remove_where_elt p e) =
  flat_map visible_string (text_nodes_elt ancestors e).
Proof.
  revert ancestors.
  induction e as [ty s|i n cs IH] using PageElement_nested_ind; intros ancestors Hp Hout.
  - simpl. rewrite Hout. simpl.
    destruct (interesting_string_type ty); simpl; [|reflexivity].
    destruct (str_is_empty (strip s)); reflexivity.
  - cbn [remove_where_elt text_nodes_elt].
    rewrite (Hp i n) by (simpl; auto).
    destruct (str_in n STRIPPED_TAGS) eqn:E.
    + simpl. symmetry. rewrite flat_map_flat_map. apply flat_map_nil_Forall.
      apply Forall_forall. intros c _. apply nothing_visible_inside.
      rewrite outside_stripped_snoc, E, Hout. reflexivity.
    + cbn [flat_map all_strings_elt]. rewrite app_nil_r.
      rewrite !flat_map_flat_map. apply flat_map_ext_Forall.
      rewrite Forall_forall in IH. apply Forall_forall. intros c Hc.
      apply IH; [exact Hc | |].
      * intros j m Hj. apply Hp. simpl. right.
        apply in_flat_map. exists c. split; assumption.
      * rewrite outside_stripped_snoc, E, Hout. reflexivity.
Qed.

(** Lines 44-47: the strings [get_text] collects after the loop are the
    visible strings of the document. *)
Lemma collected_strings_visible (soup : BeautifulSoup) :
  distinct_objects soup ->
  all_strings (decompose_each (find_all STRIPPED_TAGS soup) soup) = visible_strings soup.
Proof.
  intros Hnd. unfold all_strings, visible_strings, text_nodes.
  rewrite decompose_each_is_remove_where. unfold remove_where.
  rewrite !flat_map_flat_map.
  apply flat_map_ext_Forall, Forall_forall. intros e He.
  apply all_strings_remove_where_elt; [|reflexivity].
  intros i n Hin. apply mem_find_all; [exact Hnd|].
  unfold tags. apply in_flat_map. exists e. split; assumption.
Qed.

Lemma page_text_visible (soup : BeautifulSoup) :
  distinct_objects soup -> page_text soup = String.concat " " (visible_strings soup).
Proof.
  intros Hnd. unfold page_text, get_text.
  rewrite (collected_strings_visible soup Hnd). reflexivity.
Qed.

(** ** 15. Slices and trimmed strings *)

Lemma slice_to_short (n : nat) (s : string) :
  String.length s <= n -> slice_to n s = s.
Proof.
  unfold slice_to. revert s.
  induction n as [|n IH]; intros [|c s]; simpl; intros H; try reflexivity.
  - lia.
  - f_equal. apply IH. lia.
Qed.

Lemma slice_to_long (n : nat) (s : string) :
  n <= String.length s ->
  String.length (slice_to n s) = n /\ exists rest, s = (slice_to n s ++ rest)%string.
Proof.
  unfold slice_to. revert s.
  induction n as [|n IH]; intros [|c s]; simpl; intros H.
  - split; [reflexivity | exists ""; reflexivity].
  - split; [reflexivity | exists (String c s); reflexivity].
  - lia.
  - destruct (IH s) as [Hlen [rest Hrest]]; [lia|].
    split; [lia|]. exists rest. f_equal. exact Hrest.
Qed.

Lemma str_is_empty_true (s : string) : str_is_empty s = true <-> s = "".
Proof. destruct s; simpl; split; congruence. Qed.

Lemma lstrip_fixed (s : string) : starts_nonspace s = true -> lstrip s = s.
Proof.
  destruct s as [|c s]; simpl; [discriminate|].
  destruct (isspace c); [discriminate | reflexivity].
Qed.

Lemma lstrip_starts (s : string) : lstrip s <> "" -> starts_nonspace (lstrip s) = true.
Proof.
  induction s as [|c s IH]; simpl; [congruence|].
  destruct (isspace c) eqn:E; [exact IH|].
  intros _. simpl. rewrite E. reflexivity.
Qed.

Lemma rstrip_fixed (s : string) : ends_nonspace s = true -> rstrip s = s.
Proof.
  induction s as [|c s IH]; simpl; [discriminate|].
  destruct s as [|d s].
  - simpl. destruct (isspace c); [discriminate | reflexivity].
  - intros H. rewrite (IH H). reflexivity.
Qed.

Lemma rstrip_ends (s : string) : rstrip s <> "" -> ends_nonspace (rstrip s) = true.
Proof.
  induction s as [|c s IH]; simpl; [congruence|].
  destruct (rstrip s) as [|d r] eqn:E.
  - destruct (isspace c) eqn:Ec; [congruence|].
    intros _. simpl. rewrite Ec. reflexivity.
  - intros _. apply IH. discriminate.
Qed.

Lemma rstrip_starts (s : string) :
  starts_nonspace s = true -> starts_nonspace (rstrip s) = true.
Proof.
  destruct s as [|c s]; simpl; [discriminate|].
  destruct (isspace c) eqn:E; [discriminate|].
  intros _. destruct (rstrip s); simpl; rewrite E; reflexivity.
Qed.

(** A non-blank trimmed string begins and ends with a visible character. *)
Lemma strip_ends (s : string) :
  strip s <> "" -> starts_nonspace (strip s) = true /\ ends_nonspace (strip s) = true.
Proof.
  unfold strip. intros H.
  assert (Hl : lstrip s <> "") by (intros E; rewrite E in H; apply H; reflexivity).
  split.
  - apply rstrip_starts, lstrip_starts, Hl.
  - apply rstrip_ends, H.
Qed.

Lemma strip_fixed (s : string) :
  starts_nonspace s = true -> ends_nonspace s = true -> strip s = s.
Proof.
  intros Hs He. unfold strip. rewrite (lstrip_fixed s Hs). apply rstrip_fixed, He.
Qed.

Lemma starts_nonspace_append (a b : string) :
  starts_nonspace a = true -> starts_nonspace (a ++ b)%string = true.
Proof. destruct a; simpl; [discriminate | auto]. Qed.

Lemma ends_nonspace_append (a b : string) :
  ends_nonspace b = true -> ends_nonspace (a ++ b)%string = true.
Proof.
  intros Hb. induction a as [|c a IH]; simpl; [exact Hb|].
  destruct (a ++ b)%string eqn:E; [|exact IH].
  simpl in IH. discriminate.
Qed.

(** Joining non-blank trimmed strings with one space gives a trimmed string. *)
Lemma concat_well_trimmed (x : string) (xs : list string) :
  Forall well_trimmed (x :: xs) -> well_trimmed (String.concat " " (x :: xs)).
Proof.
  revert x. induction xs as [|y ys IH]; intros x H.
  - simpl. inversion H; assumption.
  - inversion H as [|? ? [Hs He] Hrest]; subst.
    destruct (IH y Hrest) as [_ He'].
    change (String.concat " " (x :: y :: ys)) with (x ++ " " ++ String.concat " " (y :: ys))%string.
    split.
    + apply starts_nonspace_append, Hs.
    + apply ends_nonspace_append, ends_nonspace_append, He'.
Qed.

Lemma visible_strings_well_trimmed (soup : BeautifulSoup) :
  Forall well_trimmed (visible_strings soup).
Proof.
  unfold visible_strings. apply Forall_flat_map, Forall_forall.
  intros [[ancestors ty] s] _. unfold visible_string.
  destruct (outside_stripped ancestors && interesting_string_type ty); simpl; [|constructor].
  destruct (str_is_empty (strip s)) eqn:E; simpl; constructor; [|constructor].
  apply strip_ends. intros Hs. rewrite Hs in E. discriminate.
Qed.

Lemma concat_visible_trimmed (soup : BeautifulSoup) :
  strip (String.concat " " (visible_strings soup)) = String.concat " " (visible_strings soup).
Proof.
  pose proof (visible_strings_well_trimmed soup) as H.
  destruct (visible_strings soup) as [|x xs]; [reflexivity|].
  destruct (concat_well_trimmed x xs H) as [Hs He].
  apply strip_fixed; assumption.
Qed.

(** ** 16. The properties of the specification *)

(** C1. Every 200 response of the categorize endpoint carries a categories
    list that is not empty and whose elements all belong to the allowed
    niches. *)
Theorem success_categories_allowed (w : World) (input_data : UrlInput) :
  status (post_categorize w input_data) = 200%Z ->
  exists cs,
    body (post_categorize w input_data) = JsonCategories cs
    /\ cs <> []
    /\ Forall (fun c => In c ALLOWED_NICHES) cs.
Proof.
  unfold post_categorize. rewrite categorize_run.
  destruct (extract_outcome w (url input_data)) as [content|e] eqn:E; unfold result; simpl.
  - destruct (classify_outcome_cases w content)
      as [[parsed [_ [_ ->]]]|[->|[lib [_ [_ ->]]]]]; simpl.
    + intros _. exists (categories (clamp (categories parsed))).
      split; [reflexivity|]. split; [apply clamp_nonempty | apply clamp_allowed].
    + discriminate.
    + discriminate.
  - intros H. destruct (respond_extract_failure w _ e E) as [Hne _]. contradiction.
Qed.

Lemma success_categories_allowed_witness :
  status (post_categorize (Samples.site 200 Samples.shop_page (Samples.answers ["SaaS"; "Crypto Stuff"; "Business"]))
            Samples.request) = 200%Z
  /\ exists cs,
       body (post_categorize (Samples.site 200 Samples.shop_page (Samples.answers ["SaaS"; "Crypto Stuff"; "Business"]))
               Samples.request) = JsonCategories cs
       /\ cs <> []
       /\ Forall (fun c => In c ALLOWED_NICHES) cs.
Proof.
  split; [reflexivity|].
  apply (success_categories_allowed
           (Samples.site 200 Samples.shop_page (Samples.answers ["SaaS"; "Crypto Stuff"; "Business"]))
           Samples.request).
  reflexivity.
Defined.

(** C2. The validation step keeps exactly the labels that are equal,
    character for character, to an allowed niche, in the model's order and
    with repetitions; when nothing is kept the result is the one-element
    list "Business"; and the step always produces a result, so that the
    handler returns it whenever the model answered. *)
Theorem validation_clamps (cs : list string) :
  exact_matches cs (valid_categories cs)
  /\ (forall kept, exact_matches cs kept -> kept = valid_categories cs)
  /\ (valid_categories cs <> [] -> categories (clamp cs) = valid_categories cs)
  /\ (valid_categories cs = [] -> categories (clamp cs) = ["Business"])
  /\ (forall w input_data content,
        result (extract_website_text_async w (url input_data)) = Return content ->
        llm_setup w = Reply tt ->
        chain_ainvoke w content = Reply (Some (mkCategoryResponse cs)) ->
        result (categorize_website w input_data) = Return (clamp cs)).
Proof.
  split; [apply valid_categories_exact|].
  split; [intros kept; apply exact_matches_unique|].
  split; [|split].
  - unfold clamp; simpl. destruct (valid_categories cs); [congruence | reflexivity].
  - unfold clamp; simpl. intros ->. reflexivity.
  - intros w input_data content Hx Hs Ha.
    rewrite extract_run in Hx. unfold result in Hx; simpl in Hx.
    rewrite categorize_run, Hx. unfold result; simpl.
    unfold classify_outcome. rewrite Hs, Ha. reflexivity.
Qed.

Lemma validation_clamps_witness :
  categories (clamp ["SaaS"; "Crypto Stuff"; "Business"; "SaaS"]) = ["SaaS"; "Business"; "SaaS"]
  /\ result (categorize_website
               (Samples.site 200 Samples.shop_page
                  (Samples.answers ["SaaS"; "Crypto Stuff"; "Business"; "SaaS"]))
               Samples.request) =
     Return (clamp ["SaaS"; "Crypto Stuff"; "Business"; "SaaS"]).
Proof.
  pose proof (validation_clamps ["SaaS"; "Crypto Stuff"; "Business"; "SaaS"])
    as [_ [_ [Hkept [_ Hrun]]]].
  split.
  - apply Hkept. discriminate.
  - apply (Hrun (Samples.site 200 Samples.shop_page
                   (Samples.answers ["SaaS"; "Crypto Stuff"; "Business"; "SaaS"]))
                Samples.request "We sell cloud SaaS tools for businesses.");
      reflexivity.
Defined.

(** P4 of the specification: order and repetitions survive the clamping. *)
Example clamp_keeps_order_and_duplicates :
  categories (clamp ["Finance"; "Casino"; "Finance"]) = ["Finance"; "Casino"; "Finance"].
Proof. reflexivity. Qed.

(** P3 of the specification: nothing valid, or nothing at all. *)
Example clamp_defaults_to_Business :
  categories (clamp []) = ["Business"]
  /\ categories (clamp ["Crypto Stuff"]) = ["Business"]
  /\ categories (clamp ["finance"; "SAAS"; " Health"]) = ["Business"].
Proof. repeat split. Qed.

(** C3, as stated, fails: the third label of the program has a space on
    each side of the slash, the one of the specification has none. *)
Lemma spec_niches_differ : ALLOWED_NICHES <> SPEC_NICHES.
Proof. discriminate. Qed.

(** C3, amended. The allow-list has 19 pairwise different labels; it is the
    list of the specification with the third label replaced by
    "Technology / Gadgets & Technology"; the label as the specification
    spells it is not an allowed niche. *)
Theorem allowed_niches_listed :
  ALLOWED_NICHES =
    firstn 2 SPEC_NICHES ++ "Technology / Gadgets & Technology" :: skipn 3 SPEC_NICHES
  /\ List.length ALLOWED_NICHES = 19
  /\ NoDup ALLOWED_NICHES
  /\ nth_error ALLOWED_NICHES 2 = Some "Technology / Gadgets & Technology"
  /\ str_in "Technology/Gadgets & Technology" ALLOWED_NICHES = false.
Proof.
  split; [reflexivity|]. split; [reflexivity|]. split; [|split; reflexivity].
  unfold ALLOWED_NICHES.
  repeat (constructor; [rewrite <- str_in_false; reflexivity|]).
  constructor.
Qed.

(** C10. Clamping again changes nothing: the categories the step produced
    pass the filter unchanged, and so does any list of allowed niches. *)
Theorem clamp_idempotent (cs : list string) :
  clamp (categories (clamp cs)) = clamp cs
  /\ valid_categories (categories (clamp cs)) = categories (clamp cs)
  /\ (forall allowed, Forall (fun c => In c ALLOWED_NICHES) allowed ->
        valid_categories allowed = allowed)
  /\ valid_categories ["Business"] = ["Business"].
Proof.
  assert (H : valid_categories (categories (clamp cs)) = categories (clamp cs))
    by apply valid_categories_fixed, clamp_allowed.
  split; [|split; [exact H | split; [apply valid_categories_fixed | reflexivity]]].
  unfold clamp at 1. rewrite H.
  unfold clamp; simpl. destruct (valid_categories cs); reflexivity.
Qed.

Lemma is_success_not_403 (r : Response) :
  is_success r = true -> (status_code r =? 403)%Z = false.
Proof. unfold is_success. lia. Qed.

(** C6. A fetch that answers 403 gives the response 403 with the fixed
    access-denied detail, and the classifier is not called. *)
Theorem access_denied_is_403 (w : World) (input_data : UrlInput) (r : Response) :
  client_get w (url input_data) = Reply r ->
  status_code r = 403%Z ->
  post_categorize w input_data =
    mkHttpResponse 403 (JsonDetail "Access denied by website (Cloudflare/Bot protection).")
  /\ trace (categorize_website w input_data) = fetch_events (url input_data)
  /\ classifier_invoked (trace (categorize_website w input_data)) = false.
Proof.
  intros Hget Hcode. unfold post_categorize. rewrite categorize_run.
  unfold extract_outcome. rewrite Hget, Hcode. simpl. auto.
Qed.

Lemma access_denied_is_403_witness :
  post_categorize (Samples.site 403 Samples.shop_page (Samples.answers ["SaaS"])) Samples.request =
    mkHttpResponse 403 (JsonDetail "Access denied by website (Cloudflare/Bot protection).")
  /\ trace (categorize_website (Samples.site 403 Samples.shop_page (Samples.answers ["SaaS"]))
              Samples.request) = fetch_events (url Samples.request)
  /\ classifier_invoked
       (trace (categorize_website (Samples.site 403 Samples.shop_page (Samples.answers ["SaaS"]))
                 Samples.request)) = false.
Proof.
  apply (access_denied_is_403
           (Samples.site 403 Samples.shop_page (Samples.answers ["SaaS"]))
           Samples.request (mkResponse 403 "<html>")); reflexivity.
Defined.

(** C7. A fetch that answers a status outside 200-299 other than 403, and a
    fetch that succeeds on a page without readable text, end the request
    with the exception the extractor raised: the handler raises the same
    exception, the classifier is not called, and the response is an error,
    not a 200 and not a list of categories. *)
Theorem fetch_failures_propagate (w : World) (input_data : UrlInput) (r : Response) :
  client_get w (url input_data) = Reply r ->
  (is_success r = false /\ status_code r <> 403%Z
   \/ is_success r = true
      /\ exists soup, html_parser w (text r) = Reply soup /\ page_text soup = "") ->
  exists e,
    (e = HTTPStatusError (status_code r) \/ e = ValueError "Website returned no readable text.")
    /\ result (extract_website_text_async w (url input_data)) = Raise e
    /\ categorize_website w input_data = (fetch_events (url input_data), Raise e)
    /\ classifier_invoked (trace (categorize_website w input_data)) = false
    /\ status (post_categorize w input_data) = 500%Z
    /\ (forall cs, body (post_categorize w input_data) <> JsonCategories cs).
Proof.
  intros Hget Hcase.
  assert (Hx : exists e,
             (e = HTTPStatusError (status_code r) \/ e = ValueError NO_READABLE_TEXT)
             /\ extract_outcome w (url input_data) = Raise e).
  { unfold extract_outcome. rewrite Hget.
    destruct Hcase as [[Hfail Hcode]|[Hok [soup [Hparse Hempty]]]].
    - apply Z.eqb_neq in Hcode. rewrite Hcode, Hfail. eauto.
    - rewrite (is_success_not_403 r Hok), Hok, Hparse, Hempty. simpl. eauto. }
  destruct Hx as [e [Hshape Hx]]. exists e.
  unfold post_categorize. rewrite categorize_run, extract_run, Hx.
  unfold result, trace; simpl.
  repeat split; try assumption; try reflexivity;
    destruct Hshape as [-> | ->]; simpl; try reflexivity; intros cs; discriminate.
Qed.

Lemma fetch_failures_propagate_witness :
  (exists e,
     (e = HTTPStatusError 404 \/ e = ValueError "Website returned no readable text.")
     /\ result (extract_website_text_async (Samples.site 404 Samples.shop_page (Samples.answers ["SaaS"]))
                  (url Samples.request)) = Raise e
     /\ categorize_website (Samples.site 404 Samples.shop_page (Samples.answers ["SaaS"])) Samples.request
        = (fetch_events (url Samples.request), Raise e)
     /\ classifier_invoked
          (trace (categorize_website (Samples.site 404 Samples.shop_page (Samples.answers ["SaaS"]))
                    Samples.request)) = false
     /\ status (post_categorize (Samples.site 404 Samples.shop_page (Samples.answers ["SaaS"]))
                  Samples.request) = 500%Z
     /\ (forall cs, body (post_categorize (Samples.site 404 Samples.shop_page (Samples.answers ["SaaS"]))
                            Samples.request) <> JsonCategories cs))
  /\ (exists e,
     (e = HTTPStatusError 200 \/ e = ValueError "Website returned no readable text.")
     /\ result (extract_website_text_async (Samples.site 200 Samples.blank_page (Samples.answers ["SaaS"]))
                  (url Samples.request)) = Raise e
     /\ categorize_website (Samples.site 200 Samples.blank_page (Samples.answers ["SaaS"])) Samples.request
        = (fetch_events (url Samples.request), Raise e)
     /\ classifier_invoked
          (trace (categorize_website (Samples.site 200 Samples.blank_page (Samples.answers ["SaaS"]))
                    Samples.request)) = false
     /\ status (post_categorize (Samples.site 200 Samples.blank_page (Samples.answers ["SaaS"]))
                  Samples.request) = 500%Z
     /\ (forall cs, body (post_categorize (Samples.site 200 Samples.blank_page (Samples.answers ["SaaS"]))
                            Samples.request) <> JsonCategories cs)).
Proof.
  split.
  - apply (fetch_failures_propagate
             (Samples.site 404 Samples.shop_page (Samples.answers ["SaaS"]))
             Samples.request (mkResponse 404 "<html>")); [reflexivity|].
    left. split; [reflexivity | discriminate].
  - apply (fetch_failures_propagate
             (Samples.site 200 Samples.blank_page (Samples.answers ["SaaS"]))
             Samples.request (mkResponse 200 "<html>")); [reflexivity|].
    right. split; [reflexivity|]. exists Samples.blank_page. split; reflexivity.
Defined.

(** C8, as stated, fails: a request cancelled while the chain call is
    awaited ends in [asyncio.CancelledError], which [except Exception] on
    line 90 does not catch; the handler ends with that exception and the
    answer is not the fixed 500. *)
Lemma cancelled_call_is_not_caught :
  result (extract_website_text_async cancelled (url Samples.request)) =
    Return "We sell cloud SaaS tools for businesses."
  /\ chain_ainvoke cancelled "We sell cloud SaaS tools for businesses." =
       Fails (BaseExceptionOnly "CancelledError" "client disconnected")
  /\ result (categorize_website cancelled Samples.request) =
       Raise (LibraryError (BaseExceptionOnly "CancelledError" "client disconnected"))
  /\ post_categorize cancelled Samples.request <>
       mkHttpResponse 500 (JsonDetail "LLM failed to process the request.").
Proof.
  split; [reflexivity|]. split; [reflexivity|]. split; [reflexivity|].
  discriminate.
Qed.

(** C8, amended. Once the text is extracted, every failure of the
    classification step by an exception that derives from [Exception] - the
    set-up raising, the chain raising, or an answer without a parsed
    result - gives the response 500 with the fixed detail, whatever the
    exception was; an exception that derives from [BaseException] only is
    not caught and leaves the handler as it is. *)
Theorem classifier_failures_are_500 (w : World) (input_data : UrlInput) (content : string) :
  result (extract_website_text_async w (url input_data)) = Return content ->
  (((exists e, llm_setup w = Fails e /\ derives_from_Exception e = true)
    \/ (llm_setup w = Reply tt
        /\ ((exists e, chain_ainvoke w content = Fails e /\ derives_from_Exception e = true)
            \/ chain_ainvoke w content = Reply None))) ->
   post_categorize w input_data =
     mkHttpResponse 500 (JsonDetail "LLM failed to process the request.")
   /\ result (categorize_website w input_data) =
        Raise (HTTPException 500 "LLM failed to process the request."))
  /\ (forall e,
        derives_from_Exception e = false ->
        (llm_setup w = Fails e
         \/ (llm_setup w = Reply tt /\ chain_ainvoke w content = Fails e)) ->
        result (categorize_website w input_data) = Raise (LibraryError e)).
Proof.
  intros Hx. rewrite extract_run in Hx. unfold result in Hx; cbn [snd] in Hx.
  unfold post_categorize. rewrite categorize_run, Hx. unfold result; cbn [snd].
  unfold classify_outcome, classify_failure. split.
  - intros [[e [-> ->]]|[-> [[e [-> ->]]| ->]]]; split; reflexivity.
  - intros e Hd [->|[-> ->]]; rewrite Hd; reflexivity.
Qed.

Lemma classifier_failures_are_500_witness :
  (post_categorize
     (Samples.site 200 Samples.shop_page (Fails (OtherError "ResourceExhausted" "429 quota exceeded for key AIza")))
     Samples.request =
     mkHttpResponse 500 (JsonDetail "LLM failed to process the request.")
   /\ result (categorize_website
        (Samples.site 200 Samples.shop_page (Fails (OtherError "ResourceExhausted" "429 quota exceeded for key AIza")))
        Samples.request) =
        Raise (HTTPException 500 "LLM failed to process the request."))
  /\ result (categorize_website cancelled Samples.request) =
       Raise (LibraryError (BaseExceptionOnly "CancelledError" "client disconnected")).
Proof.
  split.
  - refine (proj1 (classifier_failures_are_500
                     (Samples.site 200 Samples.shop_page
                        (Fails (OtherError "ResourceExhausted" "429 quota exceeded for key AIza")))
                     Samples.request "We sell cloud SaaS tools for businesses." eq_refl) _).
    right. split; [reflexivity|]. left. eexists. split; reflexivity.
  - refine (proj2 (classifier_failures_are_500
                     cancelled Samples.request "We sell cloud SaaS tools for businesses." eq_refl)
                  (BaseExceptionOnly "CancelledError" "client disconnected") eq_refl _).
    right. split; reflexivity.
Defined.

(** C9. The classifier is called only with the text of a successful
    extraction, after the fetch is over; when the extractor fails, the
    handler ends with the extractor's exception, calls nothing else, and the
    response is not the classifier's internal-error response and holds no
    categories. *)
Theorem classifier_only_after_extraction (w : World) (input_data : UrlInput) :
  (forall e,
     result (extract_website_text_async w (url input_data)) = Raise e ->
     categorize_website w input_data = (fetch_events (url input_data), Raise e)
     /\ classifier_invoked (trace (categorize_website w input_data)) = false
     /\ post_categorize w input_data <>
          mkHttpResponse 500 (JsonDetail "LLM failed to process the request.")
     /\ (forall cs, body (post_categorize w input_data) <> JsonCategories cs))
  /\ (forall content,
        In (LlmInvoke content) (trace (categorize_website w input_data)) ->
        result (extract_website_text_async w (url input_data)) = Return content
        /\ trace (categorize_website w input_data) =
             trace (extract_website_text_async w (url input_data))
             ++ [LlmSetup; LlmInvoke content]).
Proof.
  split.
  - intros e Hx. rewrite extract_run in Hx. unfold result in Hx; simpl in Hx.
    unfold post_categorize. rewrite categorize_run, Hx. unfold result, trace; simpl.
    destruct (respond_extract_failure w _ e Hx) as [_ [Hbody Hnot]].
    repeat split; assumption.
  - intros content. rewrite categorize_run, extract_run. unfold result, trace; simpl.
    destruct (extract_outcome w (url input_data)) as [c|e]; simpl.
    + intros [H|[H|[H|H]]]; try discriminate.
      pose proof (LlmInvoke_in_classify w c content H) as ->.
      split; [reflexivity|]. unfold classify_events in H |- *.
      destruct (llm_setup w); [reflexivity|].
      simpl in H. destruct H as [H|[]]. discriminate.
    + intros [H|[H|[H|[]]]]; discriminate.
Qed.

Lemma classifier_only_after_extraction_witness :
  categorize_website Samples.unreachable Samples.request =
    (fetch_events (url Samples.request), Raise (HTTPException 502 "Network error: timed out"))
  /\ result (extract_website_text_async
               (Samples.site 200 Samples.shop_page (Samples.answers ["SaaS"; "Business"]))
               (url Samples.request)) = Return "We sell cloud SaaS tools for businesses.".
Proof.
  split.
  - refine (proj1 (proj1 (classifier_only_after_extraction Samples.unreachable Samples.request)
                     (HTTPException 502 "Network error: timed out") _)).
    reflexivity.
  - refine (proj1 (proj2 (classifier_only_after_extraction
                            (Samples.site 200 Samples.shop_page (Samples.answers ["SaaS"; "Business"]))
                            Samples.request)
                     "We sell cloud SaaS tools for businesses." _)).
    simpl. do 4 right. left. reflexivity.
Defined.

Lemma extracted_text_sent (w : World) (input_data : UrlInput) (t : string) :
  extract_outcome w (url input_data) = Return t -> sent_to_classifier w input_data t.
Proof.
  intros Hx. unfold sent_to_classifier. rewrite categorize_run, Hx.
  unfold trace; simpl. split.
  - intros content [H|[H|[H|H]]]; try discriminate.
    apply (LlmInvoke_in_classify w t content H).
  - intros Hs. do 3 right. unfold classify_events. rewrite Hs. simpl. auto.
Qed.

Lemma extract_outcome_page (w : World) (target : string) (r : Response) (soup : BeautifulSoup) :
  client_get w target = Reply r ->
  is_success r = true ->
  html_parser w (text r) = Reply soup ->
  page_text soup <> "" ->
  extract_outcome w target = Return (slice_to TEXT_LIMIT (page_text soup)).
Proof.
  intros Hget Hok Hparse Hne. unfold extract_outcome.
  rewrite Hget, (is_success_not_403 r Hok), Hok, Hparse.
  destruct (str_is_empty (page_text soup)) eqn:E; [|reflexivity].
  apply str_is_empty_true in E. contradiction.
Qed.

(** C4. When the text of a fetched page has more than 5000 characters, the
    extractor returns its first 5000 characters and that is the text the
    classifier receives; a text of at most 5000 characters is returned and
    sent as it is (the empty text never reaches line 51), and the slice of
    line 51 changes no text of at most 5000 characters. *)
Theorem extracted_text_is_cut_at_5000
    (w : World) (input_data : UrlInput) (r : Response) (soup : BeautifulSoup) :
  client_get w (url input_data) = Reply r ->
  is_success r = true ->
  html_parser w (text r) = Reply soup ->
  ((5000 < Z.of_nat (String.length (page_text soup)))%Z ->
   exists t,
     result (extract_website_text_async w (url input_data)) = Return t
     /\ Z.of_nat (String.length t) = 5000%Z
     /\ (exists rest, page_text soup = (t ++ rest)%string)
     /\ sent_to_classifier w input_data t)
  /\ ((Z.of_nat (String.length (page_text soup)) <= 5000)%Z ->
      page_text soup <> "" ->
      result (extract_website_text_async w (url input_data)) = Return (page_text soup)
      /\ sent_to_classifier w input_data (page_text soup))
  /\ (forall s, (Z.of_nat (String.length s) <= 5000)%Z -> slice_to TEXT_LIMIT s = s).
Proof.
  intros Hget Hok Hparse. split; [|split].
  3: { intros s Hs. apply slice_to_short. unfold TEXT_LIMIT. lia. }
  - intros Hlong.
    assert (Hne : page_text soup <> "").
    { intros E. rewrite E in Hlong. simpl in Hlong. lia. }
    pose proof (extract_outcome_page w _ r soup Hget Hok Hparse Hne) as Hx.
    exists (slice_to TEXT_LIMIT (page_text soup)).
    destruct (slice_to_long TEXT_LIMIT (page_text soup)) as [Hlen Hrest].
    { unfold TEXT_LIMIT. lia. }
    split; [rewrite extract_run; exact Hx|].
    split; [rewrite Hlen; unfold TEXT_LIMIT; lia|].
    split; [exact Hrest | apply extracted_text_sent, Hx].
  - intros Hshort Hne.
    pose proof (extract_outcome_page w _ r soup Hget Hok Hparse Hne) as Hx.
    rewrite slice_to_short in Hx by (unfold TEXT_LIMIT; lia).
    split; [rewrite extract_run; exact Hx | apply extracted_text_sent, Hx].
Qed.

Lemma extracted_text_is_cut_at_5000_witness :
  (exists t,
     result (extract_website_text_async
               (Samples.site 200 Samples.long_page (Samples.answers ["Education"]))
               (url Samples.request)) = Return t
     /\ Z.of_nat (String.length t) = 5000%Z
     /\ (exists rest, page_text Samples.long_page = (t ++ rest)%string)
     /\ sent_to_classifier (Samples.site 200 Samples.long_page (Samples.answers ["Education"]))
          Samples.request t)
  /\ (result (extract_website_text_async
                (Samples.site 200 Samples.shop_page (Samples.answers ["SaaS"]))
                (url Samples.request)) = Return (page_text Samples.shop_page)
      /\ sent_to_classifier (Samples.site 200 Samples.shop_page (Samples.answers ["SaaS"]))
           Samples.request (page_text Samples.shop_page)).
Proof.
  split.
  - refine (proj1 (extracted_text_is_cut_at_5000
                     (Samples.site 200 Samples.long_page (Samples.answers ["Education"]))
                     Samples.request (mkResponse 200 "<html>") Samples.long_page
                     eq_refl eq_refl eq_refl) _).
    vm_compute. reflexivity.
  - refine (proj1 (proj2 (extracted_text_is_cut_at_5000
                     (Samples.site 200 Samples.shop_page (Samples.answers ["SaaS"]))
                     Samples.request (mkResponse 200 "<html>") Samples.shop_page
                     eq_refl eq_refl eq_refl)) _ _).
    + vm_compute. discriminate.
    + vm_compute. discriminate.
Defined.

(** C5. The text the extractor works on is made of the text nodes that lie
    in no script, style, nav, footer or header element, however deep: each
    trimmed, the blank ones left out, joined with one space, in document
    order.  It has no white space at either end, and its first 5000
    characters are what the extractor returns. *)
Theorem stripped_elements_leave_no_text
    (w : World) (target : string) (r : Response) (soup : BeautifulSoup) :
  client_get w target = Reply r ->
  is_success r = true ->
  html_parser w (text r) = Reply soup ->
  distinct_objects soup ->
  all_strings (decompose_each (find_all STRIPPED_TAGS soup) soup) = visible_strings soup
  /\ page_text soup = String.concat " " (visible_strings soup)
  /\ strip (page_text soup) = page_text soup
  /\ (forall piece, In piece (visible_strings soup) ->
        exists ancestors ty s,
          In (ancestors, ty, s) (text_nodes soup)
          /\ piece = strip s
          /\ forall n, In n ancestors -> ~ In n STRIPPED_TAGS)
  /\ (page_text soup <> "" ->
      result (extract_website_text_async w target) =
        Return (slice_to TEXT_LIMIT (String.concat " " (visible_strings soup)))).
Proof.
  intros Hget Hok Hparse Hnd.
  pose proof (page_text_visible soup Hnd) as Htext.
  split; [apply collected_strings_visible, Hnd|].
  split; [exact Htext|].
  split; [rewrite Htext; apply concat_visible_trimmed|].
  split.
  - intros piece Hin. unfold visible_strings in Hin.
    apply in_flat_map in Hin. destruct Hin as [[[ancestors ty] s] [Hnode Hpiece]].
    exists ancestors, ty, s. unfold visible_string in Hpiece.
    destruct (outside_stripped ancestors) eqn:Hout; simpl in Hpiece; [|contradiction].
    destruct (interesting_string_type ty); simpl in Hpiece; [|contradiction].
    destruct (str_is_empty (strip s)); simpl in Hpiece; [contradiction|].
    destruct Hpiece as [<-|[]].
    split; [exact Hnode|]. split; [reflexivity|].
    intros n Hn. unfold outside_stripped in Hout.
    rewrite forallb_forall in Hout. specialize (Hout n Hn).
    apply str_in_false. destruct (str_in n STRIPPED_TAGS); [discriminate | reflexivity].
  - intros Hne. rewrite extract_run. unfold result; simpl.
    rewrite <- Htext. apply (extract_outcome_page w target r soup); assumption.
Qed.

Lemma stripped_elements_leave_no_text_witness :
  page_text Samples.busy_page = "Loans and savings Open an account"
  /\ page_text Samples.busy_page = String.concat " " (visible_strings Samples.busy_page)
  /\ strip (page_text Samples.busy_page) = page_text Samples.busy_page.
Proof.
  split; [reflexivity|].
  assert (Hnd : distinct_objects Samples.busy_page).
  { unfold distinct_objects. simpl.
    repeat (apply NoDup_cons; [simpl; lia|]). apply NoDup_nil. }
  pose proof (stripped_elements_leave_no_text
                (Samples.site 200 Samples.busy_page (Samples.answers ["Finance"; "Banking"]))
                "https://bank.example/" (mkResponse 200 "<html>") Samples.busy_page
                eq_refl eq_refl eq_refl Hnd) as H.
  split; [exact (proj1 (proj2 H)) | exact (proj1 (proj2 (proj2 H)))].
Defined.

(** ** 17. Further properties of the code *)

(** *** The fetch *)

Lemma slice_to_length (n : nat) (s : string) : String.length (slice_to n s) <= n.
Proof.
  unfold slice_to. revert s.
  induction n as [|n IH]; intros [|c s]; simpl; try lia.
  specialize (IH s). lia.
Qed.

Lemma slice_to_prefix (n : nat) (s : string) :
  exists rest, s = (slice_to n s ++ rest)%string.
Proof.
  unfold slice_to. revert s.
  induction n as [|n IH]; intros [|c s]; simpl.
  - exists "". reflexivity.
  - exists (String c s). reflexivity.
  - exists "". reflexivity.
  - destruct (IH s) as [rest Hrest]. exists rest. f_equal. exact Hrest.
Qed.

Lemma slice_to_nonempty (n : nat) (s : string) :
  s <> "" -> n <> 0 -> slice_to n s <> "".
Proof.
  unfold slice_to. destruct n as [|n]; [congruence|].
  destruct s as [|c s]; [congruence|]. simpl. discriminate.
Qed.

(** What a returned text says about the world's answers. *)
Lemma extract_outcome_return (w : World) (target t : string) :
  extract_outcome w target = Return t ->
  exists r soup,
    client_get w target = Reply r
    /\ is_success r = true
    /\ html_parser w (text r) = Reply soup
    /\ page_text soup <> ""
    /\ t = slice_to TEXT_LIMIT (page_text soup).
Proof.
  unfold extract_outcome.
  destruct (client_get w target) as [r|[m|n m|n m]] eqn:Hget; try discriminate.
  destruct (status_code r =? 403)%Z; [discriminate|].
  destruct (is_success r) eqn:Hok; [|discriminate].
  destruct (html_parser w (text r)) as [soup|[m|n m|n m]] eqn:Hparse; try discriminate.
  destruct (str_is_empty (page_text soup)) eqn:E; [discriminate|].
  intros [= <-]. exists r, soup.
  split; [reflexivity|]. split; [exact Hok|]. split; [exact Hparse|].
  split; [|reflexivity].
  intros Hempty. rewrite Hempty in E. discriminate.
Qed.

(** X1. A network-level failure of the GET is answered 502 with the detail
    "Network error: " followed by the message of the error, and the model
    is never called. *)
Theorem network_error_is_502 (w : World) (input_data : UrlInput) (message : string) :
  client_get w (url input_data) = Fails (RequestError message) ->
  post_categorize w input_data =
    mkHttpResponse 502 (JsonDetail ("Network error: " ++ message))
  /\ trace (categorize_website w input_data) =
       [ClientOpened; HttpGet (url input_data); ClientClosed].
Proof.
  intros Hget. unfold post_categorize. rewrite categorize_run.
  unfold extract_outcome. rewrite Hget. split; reflexivity.
Qed.

Lemma network_error_is_502_witness :
  post_categorize Samples.unreachable Samples.request =
    mkHttpResponse 502 (JsonDetail "Network error: timed out")
  /\ trace (categorize_website Samples.unreachable Samples.request) =
       [ClientOpened; HttpGet "https://shop.example/"; ClientClosed].
Proof.
  apply (network_error_is_502 Samples.unreachable Samples.request "timed out").
  reflexivity.
Defined.



(** X3. A text the extractor returns is never empty, has at most 5000
    characters, and is the beginning of the text of a page that was fetched
    with a 2xx status. *)
Theorem extracted_text_bounded (w : World) (target t : string) :
  result (extract_website_text_async w target) = Return t ->
  t <> ""
  /\ (Z.of_nat (String.length t) <= 5000)%Z
  /\ exists r soup rest,
       client_get w target = Reply r
       /\ (200 <= status_code r <= 299)%Z
       /\ html_parser w (text r) = Reply soup
       /\ page_text soup = (t ++ rest)%string.
Proof.
  rewrite extract_run. unfold result; simpl. intros Hx.
  apply extract_outcome_return in Hx.
  destruct Hx as [r [soup [Hget [Hok [Hparse [Hne ->]]]]]].
  split; [apply slice_to_nonempty; [exact Hne | unfold TEXT_LIMIT; lia]|].
  split.
  - pose proof (slice_to_length TEXT_LIMIT (page_text soup)) as H.
    unfold TEXT_LIMIT in H at 2. lia.
  - destruct (slice_to_prefix TEXT_LIMIT (page_text soup)) as [rest Hrest].
    exists r, soup, rest. unfold is_success in Hok.
    repeat split; try assumption; lia.
Qed.

Lemma extracted_text_bounded_witness :
  "We sell cloud SaaS tools for businesses." <> ""
  /\ (Z.of_nat (String.length "We sell cloud SaaS tools for businesses.") <= 5000)%Z
  /\ exists r soup rest,
       client_get (Samples.site 206 Samples.shop_page (Samples.answers ["SaaS"]))
         "https://shop.example/" = Reply r
       /\ (200 <= status_code r <= 299)%Z
       /\ html_parser (Samples.site 206 Samples.shop_page (Samples.answers ["SaaS"])) (text r)
          = Reply soup
       /\ page_text soup = ("We sell cloud SaaS tools for businesses." ++ rest)%string.
Proof.
  apply (extracted_text_bounded
           (Samples.site 206 Samples.shop_page (Samples.answers ["SaaS"]))
           "https://shop.example/" "We sell cloud SaaS tools for businesses.").
  reflexivity.
Defined.

(** *** The handler *)

(** X4. A request makes exactly one GET and at most one call to the model.
    Its trace is the fetch alone when the extractor raises; the fetch and
    the set-up of the model when the set-up raises; and otherwise the fetch,
    the set-up and one call that carries the extracted text. *)
Theorem request_trace (w : World) (input_data : UrlInput) :
  trace (categorize_website w input_data) =
    [ClientOpened; HttpGet (url input_data); ClientClosed]
    ++ match result (extract_website_text_async w (url input_data)) with
       | Raise _ => []
       | Return content =>
           match llm_setup w with
           | Fails _ => [LlmSetup]
           | Reply _ => [LlmSetup; LlmInvoke content]
           end
       end
  /\ occurrences is_HttpGet (trace (categorize_website w input_data)) = 1
  /\ occurrences is_LlmInvoke (trace (categorize_website w input_data)) <= 1.
Proof.
  rewrite categorize_run, extract_run. unfold result, trace, occurrences; simpl.
  destruct (extract_outcome w (url input_data)) as [content|e]; simpl.
  - unfold classify_events. destruct (llm_setup w); simpl; repeat split; lia.
  - repeat split; lia.
Qed.

(** X5. The model is never called with an empty text, nor with a text of
    more than 5000 characters. *)
Theorem classifier_input_bounded (w : World) (input_data : UrlInput) (content : string) :
  In (LlmInvoke content) (trace (categorize_website w input_data)) ->
  content <> "" /\ (Z.of_nat (String.length content) <= 5000)%Z.
Proof.
  rewrite categorize_run.
  destruct (extract_outcome w (url input_data)) as [t|e] eqn:Hx; unfold trace; simpl.
  - intros [H|[H|[H|H]]]; try discriminate.
    apply LlmInvoke_in_classify in H. subst content.
    apply extract_outcome_return in Hx.
    destruct Hx as [r [soup [_ [_ [_ [Hne ->]]]]]]. split.
    + apply slice_to_nonempty; [exact Hne | unfold TEXT_LIMIT; lia].
    + pose proof (slice_to_length TEXT_LIMIT (page_text soup)) as H.
      unfold TEXT_LIMIT in H at 2. lia.
  - intros [H|[H|[H|[]]]]; discriminate.
Qed.

Lemma classifier_input_bounded_witness :
  "We sell cloud SaaS tools for businesses." <> ""
  /\ (Z.of_nat (String.length "We sell cloud SaaS tools for businesses.") <= 5000)%Z.
Proof.
  apply (classifier_input_bounded
           (Samples.site 200 Samples.shop_page (Samples.answers ["SaaS"]))
           Samples.request "We sell cloud SaaS tools for businesses.").
  simpl. do 4 right. left. reflexivity.
Defined.

(** X6. The endpoint has five kinds of answers and no other: 200 with
    categories, 403 with the access-denied detail, 502 with a network-error
    detail, 500 with the fixed detail of the classification step, and the
    server's own 500 for an exception nobody caught. *)
Theorem response_kinds (w : World) (input_data : UrlInput) :
  (exists cs, post_categorize w input_data = mkHttpResponse 200 (JsonCategories cs))
  \/ post_categorize w input_data =
       mkHttpResponse 403 (JsonDetail "Access denied by website (Cloudflare/Bot protection).")
  \/ (exists message,
        post_categorize w input_data =
          mkHttpResponse 502 (JsonDetail ("Network error: " ++ message)))
  \/ post_categorize w input_data =
       mkHttpResponse 500 (JsonDetail "LLM failed to process the request.")
  \/ post_categorize w input_data = mkHttpResponse 500 (PlainText "Internal Server Error").
Proof.
  unfold post_categorize. rewrite categorize_run.
  destruct (extract_outcome w (url input_data)) as [content|e] eqn:Hx; unfold result; simpl.
  - destruct (classify_outcome_cases w content)
      as [[parsed [_ [_ ->]]]|[->|[lib [_ [_ ->]]]]]; simpl.
    + left. eexists. reflexivity.
    + do 3 right. left. reflexivity.
    + do 4 right. reflexivity.
  - apply extract_failure_shape in Hx.
    destruct Hx as [[m ->]|[->|[[code ->]|[->|[lib ->]]]]]; simpl.
    + do 2 right. left. exists m. reflexivity.
    + right. left. reflexivity.
    + do 4 right. reflexivity.
    + do 4 right. reflexivity.
    + do 4 right. reflexivity.
Qed.

(** X7. The endpoint answers 200 with a list of categories exactly when the
    extractor returned a text, the set-up of the model succeeded and the
    chain gave a parsed answer; the list is then the clamped answer. *)
Theorem success_exactly_when (w : World) (input_data : UrlInput) (cs : list string) :
  post_categorize w input_data = mkHttpResponse 200 (JsonCategories cs)
  <-> exists content parsed,
        result (extract_website_text_async w (url input_data)) = Return content
        /\ llm_setup w = Reply tt
        /\ chain_ainvoke w content = Reply (Some parsed)
        /\ cs = categories (clamp (categories parsed)).
Proof.
  unfold post_categorize. rewrite categorize_run, extract_run. unfold result; cbn [snd].
  destruct (extract_outcome w (url input_data)) as [content|e] eqn:Hx; cbn [snd].
  - split.
    + destruct (classify_outcome_cases w content)
        as [[parsed [Hs [Ha ->]]]|[->|[lib [_ [_ ->]]]]]; simpl.
      * intros [= <-]. exists content, parsed. auto.
      * discriminate.
      * discriminate.
    + intros [c [parsed [[= <-] [Hs [Ha ->]]]]].
      unfold classify_outcome. rewrite Hs, Ha. reflexivity.
  - split.
    + intros H. destruct (respond_extract_failure w _ e Hx) as [_ [Hbody _]].
      exfalso. apply (Hbody cs). rewrite H. reflexivity.
    + intros [c [parsed [H _]]]. discriminate.
Qed.

(** X8. When the model was called, the answer is never a 403 or a 502: it
    is a 200, the fixed 500 of the classification step, or the server's own
    500, and the last only when the chain call ended in an exception that
    does not derive from [Exception]. *)
Theorem model_called_then_200_or_500 (w : World) (input_data : UrlInput) :
  classifier_invoked (trace (categorize_website w input_data)) = true ->
  (status (post_categorize w input_data) <> 403%Z
   /\ status (post_categorize w input_data) <> 502%Z)
  /\ ((exists cs, post_categorize w input_data = mkHttpResponse 200 (JsonCategories cs))
      \/ post_categorize w input_data =
           mkHttpResponse 500 (JsonDetail "LLM failed to process the request.")
      \/ (post_categorize w input_data = mkHttpResponse 500 (PlainText "Internal Server Error")
          /\ exists content e,
               chain_ainvoke w content = Fails e /\ derives_from_Exception e = false)).
Proof.
  unfold post_categorize. rewrite categorize_run.
  destruct (extract_outcome w (url input_data)) as [content|e]; unfold trace, result;
    cbn [fst snd]; [|discriminate].
  unfold classify_events. destruct (llm_setup w) as [[]|e] eqn:Hs; [|discriminate].
  intros _.
  destruct (classify_outcome_cases w content)
    as [[parsed [_ [_ ->]]]|[->|[lib [Hd [[Hf|[_ Ha]] ->]]]]]; simpl.
  - split; [split; discriminate|]. left. eexists. reflexivity.
  - split; [split; discriminate|]. right. left. reflexivity.
  - congruence.
  - split; [split; discriminate|]. do 2 right. split; [reflexivity|].
    exists content, lib. split; assumption.
Qed.

Lemma model_called_then_200_or_500_witness :
  (status (post_categorize cancelled Samples.request) <> 403%Z
   /\ status (post_categorize cancelled Samples.request) <> 502%Z)
  /\ ((exists cs, post_categorize cancelled Samples.request =
                    mkHttpResponse 200 (JsonCategories cs))
      \/ post_categorize cancelled Samples.request =
           mkHttpResponse 500 (JsonDetail "LLM failed to process the request.")
      \/ (post_categorize cancelled Samples.request =
            mkHttpResponse 500 (PlainText "Internal Server Error")
          /\ exists content e,
               chain_ainvoke cancelled content = Fails e
               /\ derives_from_Exception e = false)).
Proof.
  apply (model_called_then_200_or_500 cancelled Samples.request).
  reflexivity.
Defined.

(** *** The loop of lines 44-45 *)

Lemma tags_remove_where_elt (p : nat -> bool) (e : PageElement) (i : nat) (n : string) :
  In (i, n) (flat_map tags_elt (remove_where_elt p e)) ->
  In (i, n) (tags_elt e) /\ p i = false.
Proof.
  induction e as [ty s|j m cs IH] using PageElement_nested_ind.
  - simpl. tauto.
  - cbn [remove_where_elt]. destruct (p j) eqn:Hp; [simpl; tauto|].
    cbn [flat_map tags_elt]. rewrite app_nil_r. intros [H|H].
    + injection H as -> ->. split; [left; reflexivity | exact Hp].
    + rewrite flat_map_flat_map in H. apply in_flat_map in H.
      destruct H as [c [Hc Hin]]. rewrite Forall_forall in IH.
      destruct (IH c Hc Hin) as [Ht Hpi]. split; [|exact Hpi].
      right. apply in_flat_map. exists c. split; assumption.
Qed.

Lemma tags_remove_where (p : nat -> bool) (soup : BeautifulSoup) (i : nat) (n : string) :
  In (i, n) (tags (remove_where p soup)) -> In (i, n) (tags soup) /\ p i = false.
Proof.
  unfold tags, remove_where. rewrite flat_map_flat_map. intros H.
  apply in_flat_map in H. destruct H as [e [He Hin]].
  destruct (tags_remove_where_elt p e i n Hin) as [Ht Hp]. split; [|exact Hp].
  apply in_flat_map. exists e. split; assumption.
Qed.

Lemma filter_nil {A : Type} (f : A -> bool) (l : list A) :
  (forall x, In x l -> f x = false) -> filter f l = [].
Proof.
  induction l as [|x l IH]; intros H; [reflexivity|].
  cbn [filter]. rewrite (H x) by (left; reflexivity).
  apply IH. intros y Hy. apply H. right. exact Hy.
Qed.

Lemma find_all_nil (names : list string) (soup : BeautifulSoup) :
  (forall i n, In (i, n) (tags soup) -> ~ In n names) -> find_all names soup = [].
Proof.
  intros H. rewrite find_all_tags, filter_nil; [reflexivity|].
  intros [i n] Hin. unfold named_in. cbn [snd].
  apply str_in_false, (H i n Hin).
Qed.

(** X9. After the loop no script, style, nav, footer or header element is
    left in the tree, at any depth; searching again finds nothing, so
    running the loop a second time changes nothing. *)
Theorem no_stripped_element_remains (soup : BeautifulSoup) :
  distinct_objects soup ->
  let stripped := decompose_each (find_all STRIPPED_TAGS soup) soup in
  (forall i n, In (i, n) (tags stripped) -> ~ In n STRIPPED_TAGS)
  /\ find_all STRIPPED_TAGS stripped = []
  /\ decompose_each (find_all STRIPPED_TAGS stripped) stripped = stripped.
Proof.
  intros Hnd stripped.
  assert (Hclean : forall i n, In (i, n) (tags stripped) -> ~ In n STRIPPED_TAGS).
  { intros i n Hin. unfold stripped in Hin.
    rewrite decompose_each_is_remove_where in Hin.
    apply tags_remove_where in Hin. destruct Hin as [Ht Hmem].
    rewrite (mem_find_all STRIPPED_TAGS soup i n Hnd Ht) in Hmem.
    apply str_in_false, Hmem. }
  split; [exact Hclean|].
  assert (Hnone : find_all STRIPPED_TAGS stripped = []) by (apply find_all_nil, Hclean).
  split; [exact Hnone|]. rewrite Hnone. reflexivity.
Qed.

Lemma no_stripped_element_remains_witness :
  find_all STRIPPED_TAGS Samples.busy_page = [2; 4; 5; 6; 10]
  /\ find_all STRIPPED_TAGS
       (decompose_each (find_all STRIPPED_TAGS Samples.busy_page) Samples.busy_page) = [].
Proof.
  split; [reflexivity|].
  assert (Hnd : distinct_objects Samples.busy_page).
  { unfold distinct_objects. simpl.
    repeat (apply NoDup_cons; [simpl; lia|]). apply NoDup_nil. }
  exact (proj1 (proj2 (no_stripped_element_remains Samples.busy_page Hnd))).
Defined.

(** X10. The tree the loop leaves depends only on which elements the result
    set holds, not on their order nor on repetitions; in particular two
    removals may be swapped. *)
Theorem decompose_order_irrelevant (first second : list nat) (soup : BeautifulSoup) :
  (forall i, In i first <-> In i second) ->
  decompose_each first soup = decompose_each second soup.
Proof.
  intros Hsame. rewrite !decompose_each_is_remove_where.
  apply remove_where_ext. intros i.
  destruct (mem first i) eqn:E1, (mem second i) eqn:E2; try reflexivity.
  - apply mem_In, Hsame, mem_In in E1. congruence.
  - apply mem_In, Hsame, mem_In in E2. congruence.
Qed.

Lemma decompose_order_irrelevant_witness :
  decompose_each [2; 4; 5; 6; 10] Samples.busy_page =
  decompose_each [10; 6; 6; 5; 4; 2] Samples.busy_page.
Proof.
  apply (decompose_order_irrelevant [2; 4; 5; 6; 10] [10; 6; 6; 5; 4; 2] Samples.busy_page).
  intros i. simpl. intuition.
Defined.

(** X11. A page without any script, style, nav, footer or header element
    goes through the loop untouched: its text is the text of the whole
    document. *)
Theorem page_without_stripped_tags (soup : BeautifulSoup) :
  (forall i n, In (i, n) (tags soup) -> ~ In n STRIPPED_TAGS) ->
  decompose_each (find_all STRIPPED_TAGS soup) soup = soup
  /\ page_text soup = get_text " " soup.
Proof.
  intros Hclean. unfold page_text.
  rewrite (find_all_nil STRIPPED_TAGS soup Hclean). split; reflexivity.
Qed.

Lemma page_without_stripped_tags_witness :
  decompose_each (find_all STRIPPED_TAGS Samples.long_page) Samples.long_page = Samples.long_page
  /\ page_text Samples.long_page = get_text " " Samples.long_page.
Proof.
  apply (page_without_stripped_tags Samples.long_page).
  intros i n [H|[]]. injection H as <- <-.
  apply str_in_false. reflexivity.
Defined.

Lemma concat_empty_iff (l : list string) :
  Forall well_trimmed l -> (String.concat " " l = "" <-> l = []).
Proof.
  intros H. split; [|intros ->; reflexivity].
  destruct l as [|x xs]; [reflexivity|]. intros Hc. exfalso.
  inversion H as [|? ? [Hs _] _]; subst.
  destruct x as [|c x]; [discriminate|].
  destruct xs; simpl in Hc; discriminate.
Qed.

(** X12. A page fetched with a 2xx status is refused with "Website returned
    no readable text." exactly when it has no visible string: every text
    node lies in a stripped element, is blank, or is not ordinary text. *)
Theorem unreadable_exactly_when
    (w : World) (target : string) (r : Response) (soup : BeautifulSoup) :
  client_get w target = Reply r ->
  is_success r = true ->
  html_parser w (text r) = Reply soup ->
  distinct_objects soup ->
  (result (extract_website_text_async w target) =
     Raise (ValueError "Website returned no readable text.")
   <-> visible_strings soup = []).
Proof.
  intros Hget Hok Hparse Hnd.
  rewrite extract_run. unfold result; cbn [snd]. unfold extract_outcome.
  rewrite Hget, (is_success_not_403 r Hok), Hok, Hparse.
  rewrite <- (concat_empty_iff _ (visible_strings_well_trimmed soup)).
  rewrite <- (page_text_visible soup Hnd).
  destruct (str_is_empty (page_text soup)) eqn:E.
  - apply str_is_empty_true in E. split; [intros _; exact E | reflexivity].
  - split; [discriminate|]. intros H. rewrite H in E. discriminate.
Qed.

Lemma unreadable_exactly_when_witness :
  visible_strings chrome_page = []
  /\ result (extract_website_text_async
               (Samples.site 200 chrome_page (Samples.answers ["Business"]))
               "https://shop.example/") =
     Raise (ValueError "Website returned no readable text.").
Proof.
  split; [reflexivity|].
  assert (Hnd : distinct_objects chrome_page).
  { unfold distinct_objects. simpl.
    repeat (apply NoDup_cons; [simpl; lia|]). apply NoDup_nil. }
  apply (proj2 (unreadable_exactly_when
                  (Samples.site 200 chrome_page (Samples.answers ["Business"]))
                  "https://shop.example/" (mkResponse 200 "<html>") chrome_page
                  eq_refl eq_refl eq_refl Hnd)).
  reflexivity.
Defined.

(** *** The validation of lines 87-88 *)

Lemma valid_categories_In (cs : list string) (c : string) :
  In c (valid_categories cs) <-> In c cs /\ In c ALLOWED_NICHES.
Proof.
  unfold valid_categories. rewrite filter_In, str_in_In. reflexivity.
Qed.

Lemma valid_categories_nil (cs : list string) :
  valid_categories cs = [] <-> forall x, In x cs -> ~ In x ALLOWED_NICHES.
Proof.
  split.
  - intros E x Hx Hal.
    assert (H : In x (valid_categories cs)) by (apply valid_categories_In; auto).
    rewrite E in H. exact H.
  - intros H. unfold valid_categories. apply filter_nil.
    intros x Hx. apply str_in_false, H, Hx.
Qed.

(** X13. A label is in the categories of the answer exactly when the model
    reported it and it is an allowed niche, or when it is "Business" and the
    model reported no allowed niche at all. *)
Theorem clamp_membership (cs : list string) (c : string) :
  In c (categories (clamp cs))
  <-> (In c cs /\ In c ALLOWED_NICHES)
      \/ (c = "Business" /\ forall x, In x cs -> ~ In x ALLOWED_NICHES).
Proof.
  rewrite <- valid_categories_nil, <- valid_categories_In.
  unfold clamp. cbn [categories].
  destruct (valid_categories cs) as [|v vs]; cbn [list_or].
  - split.
    + intros [<-|[]]. right. split; reflexivity.
    + intros [[]|[-> _]]. left. reflexivity.
  - split.
    + intros H. left. exact H.
    + intros [H|[_ H]]; [exact H | discriminate].
Qed.

Lemma count_occ_filter (f : string -> bool) (l : list string) (c : string) :
  count_occ string_dec (filter f l) c = if f c then count_occ string_dec l c else 0.
Proof.
  induction l as [|x l IH]; cbn [filter].
  - destruct (f c); reflexivity.
  - destruct (string_dec x c) as [->|Hne].
    + destruct (f c) eqn:E.
      * rewrite !count_occ_cons_eq by reflexivity. rewrite IH. reflexivity.
      * exact IH.
    + rewrite (count_occ_cons_neq string_dec l Hne).
      destruct (f x); [rewrite (count_occ_cons_neq string_dec _ Hne)|]; exact IH.
Qed.

Lemma filter_length_le {A : Type} (f : A -> bool) (l : list A) :
  List.length (filter f l) <= List.length l.
Proof.
  induction l as [|x l IH]; cbn [filter]; [lia|].
  destruct (f x); simpl; lia.
Qed.

(** X14. The answer never holds more labels than the model reported (one
    when the model reported none), and when the model reported at least
    one allowed niche, every allowed niche occurs in the answer as often as
    in the model's list. *)
Theorem clamp_counts (cs : list string) :
  1 <= List.length (categories (clamp cs)) <= Nat.max 1 (List.length cs)
  /\ ((exists x, In x cs /\ In x ALLOWED_NICHES) ->
      forall c, In c ALLOWED_NICHES ->
        count_occ string_dec (categories (clamp cs)) c = count_occ string_dec cs c).
Proof.
  unfold clamp. cbn [categories]. split.
  - pose proof (filter_length_le (fun c => str_in c ALLOWED_NICHES) cs) as Hle.
    fold (valid_categories cs) in Hle.
    destruct (valid_categories cs) as [|v vs]; cbn [list_or List.length] in *; lia.
  - intros [x [Hx Hal]] c Hc.
    assert (Hin : In x (valid_categories cs)) by (apply valid_categories_In; auto).
    destruct (valid_categories cs) as [|v vs] eqn:E; [contradiction|]. cbn [list_or].
    rewrite <- E. unfold valid_categories. rewrite count_occ_filter.
    apply str_in_In in Hc. rewrite Hc. reflexivity.
Qed.

Lemma clamp_counts_witness :
  count_occ string_dec
    (categories (clamp ["Finance"; "Crypto Stuff"; "Casino"; "Finance"])) "Finance" =
  count_occ string_dec ["Finance"; "Crypto Stuff"; "Casino"; "Finance"] "Finance".
Proof.
  apply (proj2 (clamp_counts ["Finance"; "Crypto Stuff"; "Casino"; "Finance"])).
  - exists "Casino". split; [simpl; auto | apply str_in_In; reflexivity].
  - apply str_in_In. reflexivity.
Defined.

(** *** The shape of the extracted text *)

Lemma all_strings_elt_well_trimmed (e : PageElement) :
  Forall well_trimmed (all_strings_elt e).
Proof.
  induction e as [ty s|i n cs IH] using PageElement_nested_ind; cbn [all_strings_elt].
  - destruct (interesting_string_type ty); [|constructor].
    destruct (str_is_empty (strip s)) eqn:E; constructor; [|constructor].
    apply strip_ends. intros Hs. rewrite Hs in E. discriminate.
  - apply Forall_flat_map. exact IH.
Qed.

Lemma get_text_starts_visible (soup : BeautifulSoup) :
  get_text " " soup <> "" -> starts_nonspace (get_text " " soup) = true.
Proof.
  unfold get_text, all_strings.
  assert (H : Forall well_trimmed (flat_map all_strings_elt soup)).
  { apply Forall_flat_map, Forall_forall. intros e _. apply all_strings_elt_well_trimmed. }
  destruct (flat_map all_strings_elt soup) as [|x xs]; [intros Hne; contradiction Hne; reflexivity|].
  intros _. apply (concat_well_trimmed x xs H).
Qed.

Lemma slice_to_starts (n : nat) (s : string) :
  n <> 0 -> starts_nonspace s = true -> starts_nonspace (slice_to n s) = true.
Proof.
  unfold slice_to. destruct n as [|n]; [congruence|].
  destruct s as [|c s]; simpl; auto.
Qed.

(** X15. A text the extractor returns begins with a character that is not
    white space; the cut at 5000 characters may leave white space at its end
    but never at its beginning. *)
Theorem extracted_text_starts_visible (w : World) (target t : string) :
  result (extract_website_text_async w target) = Return t ->
  starts_nonspace t = true /\ lstrip t = t.
Proof.
  rewrite extract_run. unfold result; cbn [snd]. intros Hx.
  apply extract_outcome_return in Hx.
  destruct Hx as [r [soup [_ [_ [_ [Hne ->]]]]]].
  assert (Hs : starts_nonspace (slice_to TEXT_LIMIT (page_text soup)) = true).
  { apply slice_to_starts; [unfold TEXT_LIMIT; lia|].
    apply get_text_starts_visible, Hne. }
  split; [exact Hs | apply lstrip_fixed, Hs].
Qed.

Lemma extracted_text_starts_visible_witness :
  starts_nonspace "Loans and savings Open an account" = true
  /\ lstrip "Loans and savings Open an account" = "Loans and savings Open an account".
Proof.
  apply (extracted_text_starts_visible
           (Samples.site 200 Samples.busy_page (Samples.answers ["Finance"]))
           "https://bank.example/" "Loans and savings Open an account").
  reflexivity.
Defined.
